(** * tools/validate_chaos_pr.py: the chaos-board pull-request gate

    A shallow embedding of the validator and the properties of its
    region splitter, HTML safety scanner, CSS scope checker and
    orchestration.

    Python [str] values are modelled as [string]; a character is a code
    point below 256.  Integers ([str.find] results, slice bounds) are [Z].
    Exceptions are an explicit error type; the subprocess and file-system
    calls and the [html.parser] tokenizer are parameters of the
    development. *)

From Stdlib Require Import ZArith List Bool Ascii String Lia.
Import ListNotations.
Open Scope string_scope.

(** ** Python [str] primitives used by the script *)

Module Py.

Definition code (c : ascii) : nat := nat_of_ascii c.

Definition between (lo hi : nat) (c : ascii) : bool :=
  (lo <=? code c)%nat && (code c <=? hi)%nat.

(** [str.isspace] on one character: TAB..CR, FS..US, SPACE, NEL, NBSP.
    [str.strip], [str.split()] and the [\s] class of [re] all use it. *)
Definition isspace (c : ascii) : bool :=
  between 9 13 c || between 28 32 c
  || (code c =? 133)%nat || (code c =? 160)%nat.

(** [str.lower] on one character: A-Z and the Latin-1 capitals. *)
Definition lower_char (c : ascii) : ascii :=
  if between 65 90 c
     || (between 192 222 c && negb (code c =? 215)%nat)
  then ascii_of_nat (code c + 32) else c.

Fixpoint lower (s : string) : string :=
  match s with
  | "" => ""
  | String c s' => String (lower_char c) (lower s')
  end.

(** [s.startswith(p)] *)
Fixpoint startswith (p s : string) : bool :=
  match p, s with
  | "", _ => true
  | String a p', String b s' => Ascii.eqb a b && startswith p' s'
  | String _ _, "" => false
  end.

(** [s.startswith((p1, ..., pn))] *)
Definition startswith_any (ps : list string) (s : string) : bool :=
  existsb (fun p => startswith p s) ps.

Fixpoint lstrip (s : string) : string :=
  match s with
  | "" => ""
  | String c s' => if isspace c then lstrip s' else s
  end.

Fixpoint rstrip (s : string) : string :=
  match s with
  | "" => ""
  | String c s' =>
      match rstrip s' with
      | "" => if isspace c then "" else String c ""
      | r => String c r
      end
  end.

Definition strip (s : string) : string := lstrip (rstrip s).

(** Truthiness of a [str]: non-empty. *)
Definition truthy (s : string) : bool :=
  match s with "" => false | _ => true end.

Fixpoint take (n : nat) (s : string) : string :=
  match n, s with
  | S n', String c s' => String c (take n' s')
  | _, _ => ""
  end.

Fixpoint drop (n : nat) (s : string) : string :=
  match n, s with
  | S n', String _ s' => drop n' s'
  | _, _ => s
  end.

(** A slice bound as Python normalises it: a negative bound counts from
    the end, and every bound is clamped to [0, len]. *)
Definition clamp (len i : Z) : nat :=
  Z.to_nat (if (i <? 0)%Z then Z.max 0 (i + len) else Z.min i len).

(** [s[lo:hi]], [s[:hi]] and [s[lo:]] *)
Definition slice (lo hi : Z) (s : string) : string :=
  let len := Z.of_nat (length s) in
  take (clamp len hi - clamp len lo) (drop (clamp len lo) s).

Definition slice_to (hi : Z) (s : string) : string :=
  slice 0 hi s.

Definition slice_from (lo : Z) (s : string) : string :=
  slice lo (Z.of_nat (length s)) s.

(** [s.find(sub)]: the lowest index at which [sub] occurs, or [-1]. *)
Fixpoint find_from (i : Z) (sub s : string) : Z :=
  if startswith sub s then i
  else match s with
       | "" => (-1)%Z
       | String _ s' => find_from (i + 1) sub s'
       end.

Definition find (sub s : string) : Z := find_from 0 sub s.

(** [sep.join(xs)] *)
Fixpoint join (sep : string) (xs : list string) : string :=
  match xs with
  | [] => ""
  | [x] => x
  | x :: rest => x ++ sep ++ join sep rest
  end.

(** [s.split(sep)] for a non-empty [sep]: [skip] counts the characters
    of a separator still to be passed over; the result is the piece under
    construction and the pieces after it. *)
Fixpoint split_go (sep : string) (skip : nat) (s : string)
  : string * list string :=
  match s with
  | "" => ("", [])
  | String c s' =>
      match skip with
      | S k => split_go sep k s'
      | O =>
          if startswith sep s
          then ("", let (p, ps) := split_go sep (length sep - 1) s' in p :: ps)
          else let (p, ps) := split_go sep 0 s' in (String c p, ps)
      end
  end.

Definition split (sep s : string) : list string :=
  let (p, ps) := split_go sep 0 s in p :: ps.

(** [s.split()]: the maximal runs of non-whitespace characters. *)
Fixpoint words_go (s : string) : string * list string :=
  match s with
  | "" => ("", [])
  | String c s' =>
      let (w, ws) := words_go s' in
      if isspace c
      then ("", if truthy w then w :: ws else ws)
      else (String c w, ws)
  end.

Definition split_ws (s : string) : list string :=
  let (w, ws) := words_go s in if truthy w then w :: ws else ws.

(** [xs[:-1]] and [xs[-1]] on a list. *)
Definition all_but_last {A} (xs : list A) : list A := removelast xs.
Definition last_item (xs : list string) : string := last xs "".

(** [sorted(xs)] on strings: insertion into code-point order. *)
Fixpoint insert_sorted (x : string) (xs : list string) : list string :=
  match xs with
  | [] => [x]
  | y :: ys => if String.leb x y then x :: xs else y :: insert_sorted x ys
  end.

Definition sorted (xs : list string) : list string :=
  fold_right insert_sorted [] xs.

(** The double-quote character, and a text between two of them. *)
Definition dquote : ascii := ascii_of_nat 34.
Definition quoted (s : string) : string :=
  String dquote (s ++ String dquote "").

(** [x in xs] *)
Definition contains (xs : list string) (x : string) : bool :=
  existsb (String.eqb x) xs.

End Py.

(** ** The fragment of Python's [re] the script relies on

    A backtracking matcher with [re]'s priorities: alternatives are tried
    left to right, a greedy repetition tries one more iteration before
    stopping, a lazy one tries to stop first. *)

Module Re.

Inductive regex : Type :=
| Eps                                (* the empty pattern *)
| Class (p : ascii -> bool)          (* one character satisfying [p] *)
| Cat (r1 r2 : regex)                (* r1 r2 *)
| Alt (r1 r2 : regex)                (* r1|r2 *)
| Star (r : regex)                   (* r*   *)
| LazyStar (r : regex).              (* r*?  *)

Definition orelse {A} (x y : option A) : option A :=
  match x with Some _ => x | None => y end.

(** [run r k s]: match [r] at the head of [s], then hand the rest to the
    continuation [k]; the answer is what is left after the whole match.
    A repetition makes at most [length s] iterations, since an iteration
    that consumes nothing is not repeated. *)
Fixpoint run (r : regex) (k : string -> option string) (s : string)
  : option string :=
  match r with
  | Eps => k s
  | Class p =>
      match s with
      | String c s' => if p c then k s' else None
      | "" => None
      end
  | Cat r1 r2 => run r1 (run r2 k) s
  | Alt r1 r2 => orelse (run r1 k s) (run r2 k s)
  | Star r1 =>
      (fix loop (n : nat) (s : string) : option string :=
         match n with
         | O => k s
         | S n' =>
             orelse
               (run r1 (fun s' => if (length s' <? length s)%nat
                                  then loop n' s' else None) s)
               (k s)
         end) (length s) s
  | LazyStar r1 =>
      (fix loop (n : nat) (s : string) : option string :=
         match n with
         | O => k s
         | S n' =>
             orelse
               (k s)
               (run r1 (fun s' => if (length s' <? length s)%nat
                                  then loop n' s' else None) s)
         end) (length s) s
  end.

(** [r] cannot match the empty string. *)
Fixpoint nonempty (r : regex) : bool :=
  match r with
  | Eps => false
  | Class _ => true
  | Cat r1 r2 => nonempty r1 || nonempty r2
  | Alt r1 r2 => nonempty r1 && nonempty r2
  | Star _ => false
  | LazyStar _ => false
  end.

(** Length of the match of [r] at the head of [s], if there is one. *)
Definition match_len (r : regex) (s : string) : option nat :=
  match run r Some s with
  | Some rest => Some (length s - length rest)
  | None => None
  end.

(** [re.match(r, s)] and [m.group(0)]. *)
Definition match_ (r : regex) (s : string) : option string :=
  match match_len r s with
  | Some n => Some (Py.take n s)
  | None => None
  end.

(** [re.sub(r, repl, s)] for a pattern with no empty match: scan left to
    right, replace a match and resume after it.  [skip] counts the
    characters of the current match still to be passed over. *)
Fixpoint sub_go (r : regex) (repl : string) (skip : nat) (s : string)
  : string :=
  match s with
  | "" => ""
  | String c s' =>
      match skip with
      | S k => sub_go r repl k s'
      | O =>
          match match_len r s with
          | Some (S n) => repl ++ sub_go r repl n s'
          | _ => String c (sub_go r repl 0 s')
          end
      end
  end.

Definition sub (r : regex) (repl s : string) : string :=
  sub_go r repl 0 s.

(** [re.split(r, s)] for a pattern with no group and no empty match. *)
Fixpoint split_go (r : regex) (skip : nat) (s : string)
  : string * list string :=
  match s with
  | "" => ("", [])
  | String c s' =>
      match skip with
      | S k => split_go r k s'
      | O =>
          match match_len r s with
          | Some (S n) => ("", let (p, ps) := split_go r n s' in p :: ps)
          | _ => let (p, ps) := split_go r 0 s' in (String c p, ps)
          end
      end
  end.

Definition split (r : regex) (s : string) : list string :=
  let (p, ps) := split_go r 0 s in p :: ps.

(** Pattern syntax. *)
Definition chr (c : ascii) : regex := Class (Ascii.eqb c).

Fixpoint lit (s : string) : regex :=
  match s with
  | "" => Eps
  | String c s' => Cat (chr c) (lit s')
  end.

Definition plus (r : regex) : regex := Cat r (Star r).

Definition newline : ascii := ascii_of_nat 10.

(** [.] without and with [re.DOTALL], [\s], and bracket classes. *)
Definition dot : regex := Class (fun c => negb (Ascii.eqb c newline)).
Definition dot_all : regex := Class (fun _ => true).
Definition space : regex := Class Py.isspace.

Definition is_alpha (c : ascii) : bool :=
  Py.between 97 122 c || Py.between 65 90 c.

Definition is_ident_char (c : ascii) : bool :=
  is_alpha c || Py.between 48 57 c || Ascii.eqb c "-".

Definition none_of (cs : list ascii) : regex :=
  Class (fun c => negb (existsb (Ascii.eqb c) cs)).

End Re.

(** ** Exceptions *)

Inductive exn : Type :=
| ValueError (msg : string)          (* raised by [split_chaos_region] *)
| CalledProcessError (cmd : list string)
| OSError (path : string)
| AssertionError (msg : string).     (* raised by [html.parser] *)

Inductive result (A : Type) : Type :=
| Ok (a : A)
| Raise (e : exn).
Arguments Ok {A} a.
Arguments Raise {A} e.

Definition bind {A B} (m : result A) (f : A -> result B) : result B :=
  match m with
  | Ok a => f a
  | Raise e => Raise e
  end.

Notation "x <- m ;; f" := (bind m (fun x => f))
  (at level 61, m at next level, right associativity).
Notation "' pat <- m ;; f" := (bind m (fun x => match x with pat => f end))
  (at level 61, pat pattern, m at next level, right associativity).

(** ** Constants *)

Definition index_html : string := "chaos-board/index.html".
Definition chaos_css : string := "chaos-board/assets/chaos.css".

Definition ALLOWED_CHANGED_FILES : list string := [index_html; chaos_css].

Definition CHAOS_START : string := "<!-- CHAOS_START -->".
Definition CHAOS_END : string := "<!-- CHAOS_END -->".

(** ** Region splitter *)

Definition split_chaos_region (html : string)
  : result (string * string * string) :=
  let start := Py.find CHAOS_START html in
  let end_ := Py.find CHAOS_END html in
  if (start =? -1)%Z || (end_ =? -1)%Z || (end_ <=? start)%Z
  then Raise (ValueError "Missing or misordered chaos markers")
  else
    let len_start := Z.of_nat (length CHAOS_START) in
    let before := Py.slice_to (start + len_start) html in
    let region := Py.slice (start + len_start) end_ html in
    let after := Py.slice_from end_ html in
    Ok (before, region, after).

(** ** HTML safety scanner *)

(** An insertion-ordered [dict] with [str] keys: assigning to a key that
    is present keeps its position and replaces its value. *)
Definition dict : Type := list (string * string).

Fixpoint dict_set (k v : string) (d : dict) : dict :=
  match d with
  | [] => [(k, v)]
  | (k', v') :: d' =>
      if String.eqb k' k then (k, v) :: d' else (k', v') :: dict_set k v d'
  end.

Fixpoint dict_get (k : string) (d : dict) : option string :=
  match d with
  | [] => None
  | (k', v) :: d' => if String.eqb k' k then Some v else dict_get k d'
  end.

Definition dict_keys (d : dict) : list string := map fst d.

(** [v or ""] *)
Definition or_empty (v : option string) : string :=
  match v with
  | Some s => s
  | None => ""
  end.

(** [d.get(k, "")] *)
Definition dict_get_default (k : string) (d : dict) : string :=
  or_empty (dict_get k d).

(** The attribute list of a start tag as [html.parser] passes it: names
    with their value, [None] for an attribute written without one. *)
Definition attrs : Type := list (string * option string).

(** [{k.lower(): (v or "") for k, v in attrs}] *)
Definition attr_map (a : attrs) : dict :=
  fold_left (fun d kv => dict_set (Py.lower (fst kv)) (or_empty (snd kv)) d)
            a [].

Definition required_rel : list string := ["nofollow"; "noopener"; "noreferrer"].

(** [required.issubset(present)] *)
Definition issubset (required present : list string) : bool :=
  forallb (Py.contains present) required.

Definition handler_errors (tag : string) (m : dict) : list string :=
  flat_map (fun k =>
    if Py.startswith "on" k
    then ["Inline event handler attribute not allowed: " ++ tag ++ "[" ++ k ++ "]"]
    else []) (dict_keys m).

Definition is_external (href : string) : bool :=
  Py.startswith_any ["http://"; "https://"] (Py.lower (Py.strip href)).

Definition anchor_errors (m : dict) : list string :=
  let href := dict_get_default "href" m in
  (if Py.truthy href then
     let href_l := Py.lower (Py.strip href) in
     (if Py.startswith "javascript:" href_l
      then ["Links must not use javascript: URLs"] else [])
     ++
     (if negb (Py.startswith "http://" href_l
               || Py.startswith "https://" href_l
               || Py.startswith "#" href_l)
      then ["Links must be http(s) or fragment only: href=" ++ href] else [])
   else [])
  ++
  (if is_external href then
     (if negb (match dict_get "target" m with
               | Some t => String.eqb t "_blank"
               | None => false
               end)
      then ["External links must include target=" ++ Py.quoted "_blank"]
      else [])
     ++
     let rel := Py.lower (Py.join " " (Py.split_ws (or_empty (dict_get "rel" m)))) in
     let present := Py.split_ws rel in
     (if negb (issubset required_rel present)
      then ["External links must include rel="
            ++ Py.quoted "nofollow noopener noreferrer"]
      else [])
   else []).

Definition img_errors (m : dict) : list string :=
  let src := dict_get_default "src" m in
  (if Py.truthy src
      && negb (Py.startswith "https://" (Py.lower (Py.strip src)))
   then ["Images must use https:// sources"] else [])
  ++
  (if match dict_get "alt" m with
      | None => true
      | Some alt => negb (Py.truthy alt)
      end
   then ["Images must include non-empty alt attribute"] else []).

(** [ChaosHTMLSafetyParser.handle_starttag]: the parser object is its
    [errors] list, to which the call appends. *)
Definition handle_starttag (errors : list string) (tag : string) (a : attrs)
  : list string :=
  let m := attr_map a in
  errors
  ++ handler_errors tag m
  ++ (if String.eqb (Py.lower tag) "a" then anchor_errors m else [])
  ++ (if String.eqb (Py.lower tag) "img" then img_errors m else []).

(** [parser.feed(region)]: [handle_starttag] runs once per start tag that
    the tokenizer reports, in document order. *)
Definition starttag : Type := (string * attrs)%type.

Definition feed_events (errors : list string) (events : list starttag)
  : list string :=
  fold_left (fun errs ev => handle_starttag errs (fst ev) (snd ev))
            events errors.

(** ** CSS scope checker *)

(** [/\*.*?\*/] with [re.DOTALL] *)
Definition re_comment : Re.regex :=
  Re.Cat (Re.lit "/*") (Re.Cat (Re.LazyStar Re.dot_all) (Re.lit "*/")).

(** [q([^q\\]|\\.)*q] for a quote character [q] *)
Definition re_string (q : ascii) : Re.regex :=
  Re.Cat (Re.chr q)
    (Re.Cat (Re.Star (Re.Alt (Re.none_of [q; "\"%char])
                             (Re.Cat (Re.chr "\") Re.dot)))
            (Re.chr q)).

(** [\s+|>\s*|\+\s*|~\s*] *)
Definition re_combinator : Re.regex :=
  Re.Alt (Re.plus Re.space)
    (Re.Alt (Re.Cat (Re.chr ">") (Re.Star Re.space))
       (Re.Alt (Re.Cat (Re.chr "+") (Re.Star Re.space))
               (Re.Cat (Re.chr "~") (Re.Star Re.space)))).

(** [^[a-zA-Z][a-zA-Z0-9-]*], used with [re.match], which anchors it. *)
Definition re_ident : Re.regex :=
  Re.Cat (Re.Class Re.is_alpha) (Re.Star (Re.Class Re.is_ident_char)).

Definition squote : ascii := "'"%char.

(** The three [re.sub] passes at the head of [validate_css_scoping]. *)
Definition strip_comments_and_strings (css : string) : string :=
  let css := Re.sub re_comment "" css in
  let css := Re.sub (re_string squote) "''" css in
  Re.sub (re_string Py.dquote) (Py.quoted "") css.

Definition prefix_error (sel : string) : string :=
  "All selectors must start with .chaos-region: " ++ sel.

Definition bare_error (sel : string) : string :=
  "Bare element selector not allowed in chaos.css: " ++ sel.

(** The loop over [tokens]; it stops at the first token it reports. *)
Fixpoint check_tokens (sel : string) (tokens : list string) : list string :=
  match tokens with
  | [] => []
  | t0 :: rest =>
      let t := Py.strip t0 in
      if negb (Py.truthy t) then check_tokens sel rest
      else if Py.contains ["*"; "html"; "body"] t then [bare_error sel]
      else
        match Re.match_ re_ident t with
        | Some g =>
            if negb (Py.startswith_any ["."; "#"; ":"; "["] t)
            then if negb (String.eqb g "chaos-region")
                 then [bare_error sel]
                 else check_tokens sel rest
            else check_tokens sel rest
        | None => check_tokens sel rest
        end
  end.

(** The body of the loop over [selectors]. *)
Definition check_selector (sel : string) : list string :=
  if negb (Py.startswith ".chaos-region" sel)
  then [prefix_error sel]
  else check_tokens sel (Re.split re_combinator sel).

(** [[s.strip() for s in selector_part.split(",") if s.strip()]] *)
Definition selectors_of (selector_part : string) : list string :=
  map Py.strip
      (filter (fun s => Py.truthy (Py.strip s)) (Py.split "," selector_part)).

(** The body of the loop over the blocks. *)
Definition check_block (block : string) : list string :=
  let selector_part := Py.strip (Py.last_item (Py.split "}" block)) in
  if negb (Py.truthy selector_part) then []
  else if Py.startswith "@" (Py.lstrip selector_part) then []
  else flat_map check_selector (selectors_of selector_part).

(** The loop over [css.split("{")[:-1]]. *)
Definition check_blocks (css : string) : list string :=
  flat_map check_block (Py.all_but_last (Py.split "{" css)).

Definition validate_css_scoping (css : string) : list string :=
  check_blocks (strip_comments_and_strings css).

(** ** Change-set validator *)

Record ValidationResult : Type := {
  ok : bool;
  errors : list string
}.

(** [s.splitlines()]: the answer pairs the line that starts at the head
    of [s], if any, with the lines after it.  A line ends at LF, CR, CR LF,
    VT, FF, FS, GS, RS or NEL. *)
Definition is_linebreak (c : ascii) : bool :=
  Py.between 10 13 c || Py.between 28 30 c || (Py.code c =? 133)%nat.

Definition all_lines (r : option string * list string) : list string :=
  match fst r with
  | Some l => l :: snd r
  | None => snd r
  end.

Fixpoint splitlines_go (s : string) : option string * list string :=
  match s with
  | "" => (None, [])
  | String c s' =>
      let r := splitlines_go s' in
      if (Py.code c =? 13)%nat && Py.startswith (String Re.newline "") s'
      then r
      else if is_linebreak c then (Some "", all_lines r)
      else (Some (String c (or_empty (fst r))), snd r)
  end.

Definition splitlines (s : string) : list string :=
  all_lines (splitlines_go s).

Definition outside_region_error : string :=
  "index.html may only change content between CHAOS_START/CHAOS_END markers".

Definition allowed_files_error : string :=
  "Only these files may change: "
  ++ Py.join ", " (Py.sorted ALLOWED_CHANGED_FILES).

Definition illegal_files_error (illegal : list string) : string :=
  "Illegal changed files: " ++ Py.join ", " illegal.

Section Validator.

(** [subprocess.check_output(cmd, text=True, stderr=STDOUT)] *)
Variable check_output : list string -> result string.

(** [open(path, "r", encoding="utf-8").read()] *)
Variable open_read : string -> result string.

(** [HTMLParser.feed(text)]: the start tags the tokenizer reports while
    it is fed the text, in document order, or the exception it raises
    (an [AssertionError] on some declarations and marked sections). *)
Variable starttags : string -> result (list starttag).

Definition run (cmd : list string) : result string :=
  out <- check_output cmd ;; Ok (Py.strip out).

Definition git (args : list string) : result string :=
  run ("git" :: args).

Definition changed_files (base_ref : string) : result (list string) :=
  _ <- git ["fetch"; "--no-tags"; "--prune"; "--depth=200"; "origin"; base_ref] ;;
  merge_base <- git ["merge-base"; "HEAD"; "origin/" ++ base_ref] ;;
  names <- git ["diff"; "--name-only"; merge_base ++ "..HEAD"] ;;
  Ok (filter (fun n => Py.truthy (Py.strip n)) (splitlines names)).

Definition read_file_at_ref (ref path : string) : result string :=
  run ["git"; "show"; ref ++ ":" ++ path].

Definition read_worktree (path : string) : result string :=
  open_read path.

(** [parser = ChaosHTMLSafetyParser(); parser.feed(region); parser.errors]:
    an exception of [feed] leaves no error list behind. *)
Definition scan (region : string) : result (list string) :=
  events <- starttags region ;;
  Ok (feed_events [] events).

(** The two [split_chaos_region] calls inside the [try]. *)
Definition split_both (base_html head_html : string)
  : result ((string * string * string) * (string * string * string)) :=
  b <- split_chaos_region base_html ;;
  h <- split_chaos_region head_html ;;
  Ok (b, h).

(** The [if "chaos-board/index.html" in files] block. *)
Definition validate_html (base_ref : string) (errs : list string)
  : result (list string) :=
  base_html <- read_file_at_ref ("origin/" ++ base_ref) index_html ;;
  head_html <- read_worktree index_html ;;
  match split_both base_html head_html with
  | Raise (ValueError e) => Ok (errs ++ [e])%list
  | Raise e => Raise e
  | Ok ((base_before, _, base_after), (head_before, head_region, head_after)) =>
      let errs :=
        if negb (String.eqb base_before head_before)
           || negb (String.eqb base_after head_after)
        then (errs ++ [outside_region_error])%list
        else errs in
      found <- scan head_region ;;
      Ok (errs ++ found)%list
  end.

(** The [if "chaos-board/assets/chaos.css" in files] block. *)
Definition validate_css (errs : list string) : result (list string) :=
  css <- read_worktree chaos_css ;;
  Ok (errs ++ validate_css_scoping css)%list.

Definition validate (base_ref : string) : result ValidationResult :=
  let errs := [] in
  files <- changed_files base_ref ;;
  let illegal :=
    filter (fun f => negb (Py.contains ALLOWED_CHANGED_FILES f)) files in
  let errs :=
    match illegal with
    | [] => errs
    | _ :: _ => (errs ++ [allowed_files_error; illegal_files_error illegal])%list
    end in
  errs <- (if Py.contains files index_html
           then validate_html base_ref errs else Ok errs) ;;
  errs <- (if Py.contains files chaos_css
           then validate_css errs else Ok errs) ;;
  Ok {| ok := (List.length errs =? 0)%nat; errors := errs |}.

(** [os.environ.get(name)] *)
Variable environ_get : string -> option string.

(** Any exception of the [git] call is caught and answered with main. *)
Definition get_base_ref : string :=
  let from_git :=
    match git ["rev-parse"; "--abbrev-ref"; "HEAD"] with
    | Ok head => head
    | Raise _ => "main"
    end in
  match environ_get "GITHUB_BASE_REF" with
  | Some base => if Py.truthy base then base else from_git
  | None => from_git
  end.

(** [main]: the lines printed and the value returned, which becomes the
    exit status. *)
Definition main : result (list string * Z) :=
  let base_ref := get_base_ref in
  r <- validate base_ref ;;
  if ok r
  then Ok (["Chaos PR validation: OK"], 0%Z)
  else Ok ("Chaos PR validation: FAILED"
           :: map (fun e => "- " ++ e) (errors r), 2%Z).

(** The changed files outside the allow list, in change-set order. *)
Definition illegal_files (files : list string) : list string :=
  filter (fun f => negb (Py.contains ALLOWED_CHANGED_FILES f)) files.

(** The messages of the allow-list check. *)
Definition allow_errors (files : list string) : list string :=
  match illegal_files files with
  | [] => []
  | _ :: _ => [allowed_files_error; illegal_files_error (illegal_files files)]
  end.

(** [html_errs] is what the HTML block adds to the error list. *)
Definition html_outcome (base_ref : string) (files html_errs : list string)
  : Prop :=
  if Py.contains files index_html
  then validate_html base_ref [] = Ok html_errs
  else html_errs = [].

(** [css_errs] is what the CSS block adds to the error list. *)
Definition css_outcome (files css_errs : list string) : Prop :=
  if Py.contains files chaos_css
  then exists css, read_worktree chaos_css = Ok css
                   /\ css_errs = validate_css_scoping css
  else css_errs = [].

(** The result built from a final error list. *)
Definition result_of (errs : list string) : ValidationResult :=
  {| ok := (List.length errs =? 0)%nat; errors := errs |}.

End Validator.


(** ** Vocabulary of the statements *)

(** [sub] occurs in [s] at offset [n]. *)
Definition occurs_at (sub s : string) (n : nat) : Prop :=
  exists pre post, s = pre ++ sub ++ post /\ length pre = n.

(** [sub] occurs nowhere in [s]. *)
Definition absent (sub s : string) : Prop :=
  forall n, ~ occurs_at sub s n.

(** The first occurrence of [sub] in [s] is at offset [n]. *)
Definition first_at (sub s : string) (n : nat) : Prop :=
  occurs_at sub s n /\ forall m, (m < n)%nat -> ~ occurs_at sub s m.

(** A document has no well-formed region: a marker is missing, or the
    first end marker is not after the first start marker. *)
Definition malformed (html : string) : Prop :=
  absent CHAOS_START html
  \/ absent CHAOS_END html
  \/ exists s e, first_at CHAOS_START html s /\ first_at CHAOS_END html e
                 /\ (e <= s)%nat.

Definition MalformedRegion : exn :=
  ValueError "Missing or misordered chaos markers".

(** A continuation leaves at least [d] characters of its input
    unreturned. *)
Definition bounded (d : nat) (k : string -> option string) : Prop :=
  forall s rest, k s = Some rest -> (length rest + d <= length s)%nat.

(** No attribute of the tag is an event handler. *)
Definition no_handlers (a : attrs) : Prop :=
  forall name v, In (name, v) a -> Py.startswith "on" (Py.lower name) = false.

Definition javascript_error : string := "Links must not use javascript: URLs".

Definition scheme_error (href : string) : string :=
  "Links must be http(s) or fragment only: href=" ++ href.

(** The start tag that [html.parser] reports for the text
    <a href=javascript:alert(1) onclick=x()> with both values quoted. *)
Definition javascript_anchor : starttag :=
  ("a", [("href", Some "javascript:alert(1)"); ("onclick", Some "x()")]).


(** The inside of a string literal with quote character [q] that the
    pattern of the script matches: a character other than [q] and the
    backslash, or a backslash followed by one character that is not a
    line feed. *)
Fixpoint string_body (q : ascii) (s : string) : bool :=
  match s with
  | "" => true
  | String c s' =>
      if Ascii.eqb c "\"
      then match s' with
           | String d s'' =>
               negb (Ascii.eqb d Re.newline) && string_body q s''
           | "" => false
           end
      else negb (Ascii.eqb c q) && string_body q s'
  end.




(** The value of the last attribute of [a] whose lowercased name is
    [key], with [""] for an attribute written without a value. *)
Fixpoint lookup_last (key : string) (a : attrs) : option string :=
  match a with
  | [] => None
  | (name, v) :: rest =>
      match lookup_last key rest with
      | Some x => Some x
      | None => if String.eqb (Py.lower name) key
                then Some (or_empty v) else None
      end
  end.

Definition handler_error (tag k : string) : string :=
  "Inline event handler attribute not allowed: " ++ tag ++ "[" ++ k ++ "]".

(** The tokens of a [rel] value: its whitespace-separated words,
    lowercased. *)
Definition rel_tokens (rel : string) : list string :=
  map Py.lower (Py.split_ws rel).

(** The link rules on the attribute dictionary of an anchor: no href or
    an empty one, a fragment, or an external link that opens in a new
    tab and carries the three [rel] tokens. *)
Definition anchor_ok (m : dict) : Prop :=
  let href := dict_get_default "href" m in
  href = ""
  \/ Py.startswith "#" (Py.lower (Py.strip href)) = true
  \/ (is_external href = true
      /\ dict_get "target" m = Some "_blank"
      /\ forall t, In t required_rel ->
                   In t (rel_tokens (or_empty (dict_get "rel" m)))).

(** The image rules on the attribute dictionary of an img: no src, an
    empty one or an https one, and an alt that is present and not empty. *)
Definition img_ok (m : dict) : Prop :=
  let src := dict_get_default "src" m in
  (src = "" \/ Py.startswith "https://" (Py.lower (Py.strip src)) = true)
  /\ exists alt, dict_get "alt" m = Some alt /\ alt <> "".

(** No character of [s] is whitespace. *)
Fixpoint all_nonspace (s : string) : bool :=
  match s with
  | "" => true
  | String c s' => negb (Py.isspace c) && all_nonspace s'
  end.

(** A word: not empty and without whitespace. *)
Definition is_word (w : string) : Prop :=
  Py.truthy w = true /\ all_nonspace w = true.

(** [c] occurs in [s]. *)
Fixpoint has_char (c : ascii) (s : string) : bool :=
  match s with
  | "" => false
  | String d s' => Ascii.eqb c d || has_char c s'
  end.

(** A selector token that names an element: the star, html or body, or
    a token that begins with an identifier other than chaos-region. *)
Definition is_bare_token (t : string) : bool :=
  Py.contains ["*"; "html"; "body"] (Py.strip t)
  || match Re.match_ re_ident (Py.strip t) with
     | Some g => negb (String.eqb g "chaos-region")
     | None => false
     end.

(** A selector token that is empty or begins a class, id, pseudo-class
    or attribute selector. *)
Definition is_qualified_token (t : string) : bool :=
  negb (Py.truthy (Py.strip t))
  || Py.startswith_any ["."; "#"; ":"; "["] (Py.strip t).

(** The last character of [s] is whitespace. *)
Fixpoint last_is_space (s : string) : bool :=
  match s with
  | "" => false
  | String c "" => Py.isspace c
  | String _ s' => last_is_space s'
  end.

(** The first character of [s] is whitespace. *)
Definition first_is_space (s : string) : bool :=
  match s with
  | "" => false
  | String c _ => Py.isspace c
  end.

(** No character of [s] ends a line. *)
Fixpoint no_linebreak (s : string) : bool :=
  match s with
  | "" => true
  | String c s' => negb (is_linebreak c) && no_linebreak s'
  end.

(** A path as git prints it on a line of its own: not empty, without a
    line break, and with no whitespace at either end. *)
Definition path_name (n : string) : Prop :=
  n <> "" /\ no_linebreak n = true
  /\ first_is_space n = false /\ last_is_space n = false.

(** What the HTML block reports for a base page and a current page:
    the one malformed-region message when either does not split, and
    otherwise the outside-the-region message when a prefix or a suffix
    differs, then the violations of the current interior. *)
Definition html_violations (starttags : string -> result (list starttag))
    (base_html head_html : string) : result (list string) :=
  match split_chaos_region base_html, split_chaos_region head_html with
  | Ok (bb, _, ba), Ok (hb, hr, ha) =>
      found <- scan starttags hr ;;
      Ok ((if String.eqb bb hb && String.eqb ba ha
           then [] else [outside_region_error])
          ++ found)%list
  | _, _ => Ok ["Missing or misordered chaos markers"]
  end.

(** ** A sample checkout

    A repository state on which the validator can be run: git answers the
    diff with [names] and the show with [base], the work tree holds [head]
    and [css], and the tokenizer is tabulated on the regions used. *)

Definition nl : string := String Re.newline "".

Definition sample_check_output (names base : string) (cmd : list string)
  : result string :=
  match cmd with
  | _ :: subcommand :: _ =>
      if String.eqb subcommand "diff" then Ok names
      else if String.eqb subcommand "show" then Ok base
      else Ok ("3f2a9c1" ++ nl)
  | _ => Raise (CalledProcessError cmd)
  end.

Definition sample_open_read (head css : string) (path : string)
  : result string :=
  if String.eqb path index_html then Ok head
  else if String.eqb path chaos_css then Ok css
  else Raise (OSError path).

Definition sample_region : string := "<b onclick=go()>hi</b>".

(** A region on which [html.parser] raises: a marked section with an
    unknown keyword. *)
Definition sample_marked_region : string := "<![foo[x]]>".

Definition sample_starttags (region : string) : result (list starttag) :=
  if String.eqb region sample_region
  then Ok [("b", [("onclick", Some "go()")])]
  else if String.eqb region sample_marked_region
  then Raise (AssertionError "unknown status keyword 'foo' in marked section")
  else Ok [].

Definition sample_page (header region : string) : string :=
  header ++ CHAOS_START ++ region ++ CHAOS_END ++ "</body>".

Definition sample_names : string :=
  index_html ++ nl ++ chaos_css ++ nl ++ "README.md" ++ nl.

Definition sample_files : list string := [index_html; chaos_css; "README.md"].

Definition sample_css : string := ".chaos-region h1 {}".

(** The base page has the region with other content in it. *)
Definition sample_git : list string -> result string :=
  sample_check_output sample_names (sample_page "<body>" "old" ++ nl).

(** The base page has no marker at all. *)
Definition sample_git_unmarked : list string -> result string :=
  sample_check_output sample_names ("<body></body>" ++ nl).

Definition sample_tree : string -> result string :=
  sample_open_read (sample_page "<body>" sample_region) sample_css.

(** The current page differs from the base page in its interior only;
    both end with a newline. *)
Definition sample_tree_newline : string -> result string :=
  sample_open_read (sample_page "<body>" sample_region ++ nl) sample_css.

(** The current page has the marked section as its interior. *)
Definition sample_tree_marked : string -> result string :=
  sample_open_read (sample_page "<body>" sample_marked_region) sample_css.

(** The work tree holds the very text git shows for the base page. *)
Definition sample_tree_unchanged : string -> result string :=
  sample_open_read (sample_page "<body>" "old" ++ nl) sample_css.

(** * Properties *)

(** ** Strings: prefixes, slices and [find] *)

Lemma append_assoc (a b c : string) : (a ++ b) ++ c = a ++ b ++ c.
Proof. induction a as [|x a IH]; simpl; [reflexivity | now rewrite IH]. Qed.


Lemma length_append (a b : string) :
  length (a ++ b) = (length a + length b)%nat.
Proof. induction a as [|x a IH]; simpl; [reflexivity | now rewrite IH]. Qed.

Lemma startswith_append (p t : string) : Py.startswith p (p ++ t) = true.
Proof.
  induction p as [|c p IH]; simpl; [reflexivity|].
  now rewrite Ascii.eqb_refl, IH.
Qed.

Lemma startswith_inv (p s : string) :
  Py.startswith p s = true -> exists t, s = p ++ t.
Proof.
  revert s; induction p as [|c p IH]; intros s H.
  - now exists s.
  - destruct s as [|d s]; simpl in H; [discriminate|].
    apply andb_true_iff in H as [Hc Hp].
    apply Ascii.eqb_eq in Hc; subst d.
    destruct (IH _ Hp) as [t ->]. now exists t.
Qed.

Lemma drop_0 (s : string) : Py.drop 0 s = s.
Proof. now destruct s. Qed.

Lemma take_drop (n : nat) (s : string) : Py.take n s ++ Py.drop n s = s.
Proof.
  revert s; induction n as [|n IH]; intros [|c s]; simpl; try reflexivity.
  now rewrite IH.
Qed.

Lemma take_all (n : nat) (s : string) :
  (length s <= n)%nat -> Py.take n s = s.
Proof.
  revert s; induction n as [|n IH]; intros [|c s] H; simpl in *;
    try reflexivity; try lia.
  rewrite IH; [reflexivity | lia].
Qed.

Lemma length_drop (n : nat) (s : string) :
  length (Py.drop n s) = (length s - n)%nat.
Proof.
  revert s; induction n as [|n IH]; intros [|c s]; simpl; try reflexivity.
  apply IH.
Qed.

Lemma drop_drop (n m : nat) (s : string) :
  Py.drop m (Py.drop n s) = Py.drop (n + m) s.
Proof.
  revert s; induction n as [|n IH]; intros s; simpl.
  - now rewrite ?drop_0.
  - destruct s as [|c s]; [now destruct m | apply IH].
Qed.

Lemma drop_append (a b : string) : Py.drop (length a) (a ++ b) = b.
Proof. induction a as [|c a IH]; simpl; [apply drop_0 | exact IH]. Qed.

Lemma take_append (a b : string) : Py.take (length a) (a ++ b) = a.
Proof.
  induction a as [|c a IH]; simpl; [now destruct b | now rewrite IH].
Qed.

Lemma occurs_at_0 (sub s : string) :
  occurs_at sub s 0 <-> Py.startswith sub s = true.
Proof.
  split.
  - intros (pre & post & -> & Hl). destruct pre; [|discriminate].
    simpl. apply startswith_append.
  - intros H. destruct (startswith_inv _ _ H) as [t ->].
    now exists "", t.
Qed.

Lemma occurs_at_S (sub : string) (c : ascii) (s : string) (n : nat) :
  occurs_at sub (String c s) (S n) <-> occurs_at sub s n.
Proof.
  split.
  - intros (pre & post & E & Hl). destruct pre as [|d pre]; [discriminate|].
    simpl in E, Hl. injection E as -> ->. injection Hl as Hl.
    now exists pre, post.
  - intros (pre & post & -> & Hl). exists (String c pre), post.
    simpl. now rewrite Hl.
Qed.

Lemma occurs_at_empty (sub : string) (n : nat) :
  occurs_at sub "" (S n) -> False.
Proof. intros (pre & post & E & Hl). destruct pre; discriminate. Qed.

Lemma occurs_at_drop (sub s : string) (n : nat) :
  occurs_at sub s n -> Py.startswith sub (Py.drop n s) = true.
Proof.
  intros (pre & post & -> & <-). rewrite drop_append.
  apply startswith_append.
Qed.

Lemma occurs_at_length (sub s : string) (n : nat) :
  occurs_at sub s n -> (n + length sub <= length s)%nat.
Proof.
  intros (pre & post & -> & <-). rewrite !length_append. lia.
Qed.

(** [find_from] answers [-1] when [sub] is absent and otherwise the
    start index plus the offset of the first occurrence. *)
Lemma find_from_spec (sub s : string) (i : Z) :
  (Py.find_from i sub s = (-1)%Z /\ absent sub s)
  \/ (exists n, Py.find_from i sub s = (i + Z.of_nat n)%Z
                /\ first_at sub s n).
Proof.
  revert i; induction s as [|c s IH]; intros i.
  - simpl. destruct (Py.startswith sub "") eqn:E.
    + right. exists 0%nat. split; [f_equal; lia|].
      split; [now apply occurs_at_0 | intros m Hm; lia].
    + left. split; [now destruct sub|].
      intros [|n] H; [apply occurs_at_0 in H; congruence|].
      eapply occurs_at_empty; eauto.
  - cbn [Py.find_from]. destruct (Py.startswith sub (String c s)) eqn:E.
    + right. exists 0%nat. split; [lia|].
      split; [now apply occurs_at_0 | intros m Hm; lia].
    + destruct (IH (i + 1)%Z) as [[Hf Ha] | (n & Hf & Ho & Hm)].
      * left. split; [exact Hf|].
        intros [|n] H; [apply occurs_at_0 in H; congruence|].
        apply occurs_at_S in H. exact (Ha _ H).
      * right. exists (S n). split; [rewrite Hf; lia|]. split.
        -- now apply occurs_at_S.
        -- intros [|m] Hlt H; [apply occurs_at_0 in H; congruence|].
           apply occurs_at_S in H. apply (Hm m); [lia | exact H].
Qed.

Lemma first_at_unique (sub s : string) (n m : nat) :
  first_at sub s n -> first_at sub s m -> n = m.
Proof.
  intros [Hn Hn'] [Hm Hm'].
  destruct (Nat.lt_trichotomy n m) as [H | [H | H]]; [|exact H|].
  - exfalso. exact (Hm' _ H Hn).
  - exfalso. exact (Hn' _ H Hm).
Qed.

Lemma find_cases (sub s : string) :
  (Py.find sub s = (-1)%Z /\ absent sub s)
  \/ (exists n, Py.find sub s = Z.of_nat n /\ first_at sub s n).
Proof.
  unfold Py.find. destruct (find_from_spec sub s 0) as [H | (n & Hf & Ho)].
  - now left.
  - right. exists n. split; [rewrite Hf; lia | exact Ho].
Qed.

(** [s.find(sub)] is [-1] exactly when [sub] is absent, and is [n]
    exactly when the first occurrence is at [n]. *)
Lemma find_absent (sub s : string) :
  Py.find sub s = (-1)%Z <-> absent sub s.
Proof.
  destruct (find_cases sub s) as [[Hf Ha] | (n & Hf & Ho)].
  - tauto.
  - split; [lia|]. intros Ha. destruct Ho as [Ho _]. now apply Ha in Ho.
Qed.

Lemma find_first (sub s : string) (n : nat) :
  Py.find sub s = Z.of_nat n <-> first_at sub s n.
Proof.
  destruct (find_cases sub s) as [[Hf Ha] | (m & Hf & Ho)].
  - split; [lia|]. intros [Ho _]. now apply Ha in Ho.
  - split.
    + intros E. assert (m = n) as <- by lia. exact Ho.
    + intros Hn. rewrite Hf, (first_at_unique _ _ _ _ Ho Hn). lia.
Qed.

(** ** Regular expressions: the patterns of the script consume input *)

Lemma run_bounded (r : Re.regex) :
  forall d k, bounded d k -> bounded d (Re.run r k).
Proof.
  induction r as [|p|r1 IH1 r2 IH2|r1 IH1 r2 IH2|r1 IH1|r1 IH1];
    intros d k Hk s rest H; cbn [Re.run] in H.
  - now apply Hk.
  - destruct s as [|c s]; [discriminate|].
    destruct (p c); [|discriminate]. apply Hk in H. simpl. lia.
  - eapply IH1; [|exact H]. now apply IH2.
  - unfold Re.orelse in H. destruct (Re.run r1 k s) eqn:E.
    + injection H as <-. eapply IH1; eauto.
    + eapply IH2; eauto.
  - revert H. generalize (length s) at 1. intros n. revert s rest.
    induction n as [|n IHn]; intros s rest H; [now apply Hk|].
    unfold Re.orelse in H.
    match type of H with
    | match Re.run r1 ?k' s with _ => _ end = _ =>
        assert (Hk' : bounded d k'); [|destruct (Re.run r1 k' s) eqn:E]
    end.
    + intros s' rest' H'.
      destruct (length s' <? length s)%nat; [now apply IHn | discriminate].
    + injection H as <-. eapply IH1; eauto.
    + now apply Hk.
  - revert H. generalize (length s) at 1. intros n. revert s rest.
    induction n as [|n IHn]; intros s rest H; [now apply Hk|].
    unfold Re.orelse in H. destruct (k s) eqn:Ek.
    + injection H as <-. now apply Hk.
    + match type of H with
      | Re.run r1 ?k' s = _ => assert (Hk' : bounded d k')
      end.
      * intros s' rest' H'.
        destruct (length s' <? length s)%nat; [now apply IHn | discriminate].
      * eapply IH1; eauto.
Qed.

Lemma run_consumes (r : Re.regex) :
  Re.nonempty r = true ->
  forall d k, bounded d k -> bounded (S d) (Re.run r k).
Proof.
  induction r as [|p|r1 IH1 r2 IH2|r1 IH1 r2 IH2|r1 IH1|r1 IH1];
    cbn [Re.nonempty]; intros Hne d k Hk; try discriminate.
  - intros s rest H. cbn [Re.run] in H.
    destruct s as [|c s]; [discriminate|].
    destruct (p c); [|discriminate]. apply Hk in H. simpl. lia.
  - cbn [Re.run]. apply orb_true_iff in Hne as [H1 | H2].
    + apply IH1; [exact H1|]. now apply run_bounded.
    + apply run_bounded. now apply IH2.
  - apply andb_true_iff in Hne as [H1 H2].
    intros s rest H. cbn [Re.run] in H. unfold Re.orelse in H.
    destruct (Re.run r1 k s) eqn:E.
    + injection H as <-. eapply IH1; eauto.
    + eapply IH2; eauto.
Qed.

(** A match of a pattern that cannot match the empty string has at
    least one character: [Re.sub] and [Re.split] never meet an empty
    match on such a pattern. *)
Lemma match_len_positive (r : Re.regex) (s : string) (n : nat) :
  Re.nonempty r = true -> Re.match_len r s = Some n -> (1 <= n)%nat.
Proof.
  intros Hne. unfold Re.match_len.
  destruct (Re.run r Some s) as [rest|] eqn:E; [|discriminate].
  intros H. injection H as <-.
  assert (Hb : bounded 0 Some).
  { intros s' rest' H'. injection H' as <-. lia. }
  pose proof (run_consumes r Hne 0 Some Hb s rest E). lia.
Qed.

Lemma patterns_nonempty (q : ascii) :
  Re.nonempty re_comment = true
  /\ Re.nonempty (re_string q) = true
  /\ Re.nonempty re_combinator = true
  /\ Re.nonempty re_ident = true.
Proof. repeat split. Qed.

(** ** Region splitter *)

Lemma clamp_nat (len n : nat) :
  (n <= len)%nat -> Py.clamp (Z.of_nat len) (Z.of_nat n) = n.
Proof.
  intros H. unfold Py.clamp.
  destruct (Z.ltb_spec (Z.of_nat n) 0); lia.
Qed.

Lemma slice_nat (a b : nat) (s : string) :
  (a <= b)%nat -> (b <= length s)%nat ->
  Py.slice (Z.of_nat a) (Z.of_nat b) s = Py.take (b - a) (Py.drop a s).
Proof.
  intros Hab Hb. unfold Py.slice.
  rewrite !clamp_nat by lia. reflexivity.
Qed.

Lemma slice_to_nat (b : nat) (s : string) :
  (b <= length s)%nat -> Py.slice_to (Z.of_nat b) s = Py.take b s.
Proof.
  intros Hb. unfold Py.slice_to.
  rewrite (slice_nat 0 b) by lia.
  now rewrite drop_0, Nat.sub_0_r.
Qed.

Lemma slice_from_nat (a : nat) (s : string) :
  (a <= length s)%nat -> Py.slice_from (Z.of_nat a) s = Py.drop a s.
Proof.
  intros Ha. unfold Py.slice_from.
  rewrite slice_nat by lia.
  apply take_all. rewrite length_drop. lia.
Qed.

(** The end marker cannot begin inside an occurrence of the start
    marker: the only [<] of [CHAOS_START] is its first character. *)
Lemma markers_disjoint (html : string) (n1 n2 : nat) :
  occurs_at CHAOS_START html n1 ->
  occurs_at CHAOS_END html n2 ->
  (n1 < n2)%nat ->
  (n1 + length CHAOS_START <= n2)%nat.
Proof.
  intros H1 H2 Hlt.
  destruct (Nat.le_gt_cases (n1 + length CHAOS_START) n2) as [|Hgt];
    [assumption | exfalso].
  apply occurs_at_drop in H2.
  destruct H1 as (pre & post & -> & <-).
  replace n2 with (length pre + (n2 - length pre))%nat in H2 by lia.
  rewrite <- drop_drop, drop_append in H2.
  remember (n2 - length pre)%nat as k eqn:Hk.
  assert (Hk1 : (1 <= k)%nat) by lia.
  assert (Hk2 : (k < length CHAOS_START)%nat) by lia.
  clear - H2 Hk1 Hk2. simpl in Hk2.
  do 20 (destruct k as [|k]; [simpl in H2; try discriminate; lia|]).
  lia.
Qed.

(** What a successful split returns, in terms of the first occurrences
    of the two markers. *)
Lemma split_ok_inv (html before region after : string) :
  split_chaos_region html = Ok (before, region, after) ->
  exists n1 n2,
    first_at CHAOS_START html n1 /\ first_at CHAOS_END html n2
    /\ (n1 + length CHAOS_START <= n2)%nat
    /\ before = Py.take (n1 + length CHAOS_START) html
    /\ region = Py.take (n2 - (n1 + length CHAOS_START))
                        (Py.drop (n1 + length CHAOS_START) html)
    /\ after = Py.drop n2 html.
Proof.
  unfold split_chaos_region. intros H.
  destruct (find_cases CHAOS_START html) as [[E1 _] | (n1 & E1 & F1)];
    rewrite E1 in H; [discriminate|].
  destruct (find_cases CHAOS_END html) as [[E2 _] | (n2 & E2 & F2)];
    rewrite E2 in H.
  { rewrite Z.eqb_refl, orb_true_r in H. discriminate. }
  destruct (Z.of_nat n1 =? -1)%Z eqn:Ea; [discriminate|].
  destruct (Z.of_nat n2 =? -1)%Z eqn:Eb; [discriminate|].
  destruct (Z.of_nat n2 <=? Z.of_nat n1)%Z eqn:Ec; [discriminate|].
  apply Z.leb_gt in Ec. cbn [orb] in H.
  assert (Hd : (n1 + length CHAOS_START <= n2)%nat)
    by (apply (markers_disjoint html); [apply F1 | apply F2 | lia]).
  assert (Hl : (n2 + length CHAOS_END <= length html)%nat)
    by (apply occurs_at_length, F2).
  exists n1, n2. rewrite <- Nat2Z.inj_add in H.
  rewrite slice_to_nat, slice_nat, slice_from_nat in H by lia.
  injection H as <- <- <-. repeat split; try assumption; apply F1 || apply F2.
Qed.

Lemma split_raises_malformed (html : string) (e : exn) :
  split_chaos_region html = Raise e -> e = MalformedRegion.
Proof.
  unfold split_chaos_region.
  destruct (_ || _); intros H; [now injection H as <- | discriminate].
Qed.

(** C5. For every document on which the region split succeeds, the
    returned prefix ends with the CHAOS_START marker, the returned suffix
    begins with the CHAOS_END marker, and prefix + interior + suffix is
    the original document, character for character. *)
Theorem split_chaos_region_roundtrip (html before region after : string) :
  split_chaos_region html = Ok (before, region, after) ->
  (exists p, before = p ++ CHAOS_START)
  /\ (exists q, after = CHAOS_END ++ q)
  /\ before ++ region ++ after = html.
Proof.
  intros H.
  destruct (split_ok_inv _ _ _ _ H)
    as (n1 & n2 & [O1 _] & [O2 _] & Hd & -> & -> & ->).
  split; [|split].
  - destruct O1 as (pre & post & -> & <-). exists pre.
    rewrite <- length_append, <- append_assoc. apply take_append.
  - destruct O2 as (pre & post & -> & <-). exists post.
    apply drop_append.
  - replace (Py.drop n2 html)
      with (Py.drop (n2 - (n1 + length CHAOS_START))
                    (Py.drop (n1 + length CHAOS_START) html)).
    + now rewrite !take_drop.
    + rewrite drop_drop. f_equal. lia.
Qed.

Lemma split_chaos_region_roundtrip_witness :
  split_chaos_region "<p><!-- CHAOS_START -->hi<!-- CHAOS_END --></p>"
  = Ok ("<p><!-- CHAOS_START -->", "hi", "<!-- CHAOS_END --></p>")
  /\ ((exists p, "<p><!-- CHAOS_START -->" = p ++ CHAOS_START)
      /\ (exists q, "<!-- CHAOS_END --></p>" = CHAOS_END ++ q)
      /\ "<p><!-- CHAOS_START -->" ++ "hi" ++ "<!-- CHAOS_END --></p>"
         = "<p><!-- CHAOS_START -->hi<!-- CHAOS_END --></p>").
Proof.
  split; [reflexivity|].
  apply (split_chaos_region_roundtrip
           "<p><!-- CHAOS_START -->hi<!-- CHAOS_END --></p>").
  reflexivity.
Defined.

(** C6. The region split raises the malformed-region error exactly on
    the documents from which the start marker is absent, or the end marker
    is absent, or whose first end marker is not strictly after the first
    start marker; on every other document it returns a three-way split. *)
Theorem split_chaos_region_fails_iff_malformed (html : string) :
  (malformed html /\ split_chaos_region html = Raise MalformedRegion)
  \/ (~ malformed html
      /\ exists before region after,
           split_chaos_region html = Ok (before, region, after)).
Proof.
  unfold split_chaos_region, malformed.
  destruct (find_cases CHAOS_START html) as [[E1 A1] | (n1 & E1 & F1)];
    rewrite E1.
  { left. split; [now left | reflexivity]. }
  destruct (find_cases CHAOS_END html) as [[E2 A2] | (n2 & E2 & F2)];
    rewrite E2.
  { left. split; [now right; left|].
    now rewrite Z.eqb_refl, orb_true_r. }
  destruct (Z.of_nat n1 =? -1)%Z eqn:Ea; [apply Z.eqb_eq in Ea; lia|].
  destruct (Z.of_nat n2 =? -1)%Z eqn:Eb; [apply Z.eqb_eq in Eb; lia|].
  destruct (Z.of_nat n2 <=? Z.of_nat n1)%Z eqn:Ec; cbn [orb].
  - apply Z.leb_le in Ec. left. split; [|reflexivity].
    right; right. exists n1, n2. repeat split; try apply F1; try apply F2.
    lia.
  - apply Z.leb_gt in Ec. right. split; [|eauto].
    intros [A | [A | (s & e & Fs & Fe & Hle)]].
    + apply (A n1), F1.
    + apply (A n2), F2.
    + rewrite (first_at_unique _ _ _ _ Fs F1) in Hle.
      rewrite (first_at_unique _ _ _ _ Fe F2) in Hle. lia.
Qed.

(** ** HTML safety scanner *)

Lemma dict_set_keys (k v k' : string) (d : dict) :
  In k' (dict_keys (dict_set k v d)) -> k' = k \/ In k' (dict_keys d).
Proof.
  induction d as [|[k0 v0] d IH]; simpl.
  - intros [<- | []]. now left.
  - destruct (String.eqb_spec k0 k) as [-> | Hne]; simpl.
    + intros [<- | H]; [now left | now right; right].
    + intros [<- | H]; [now right; left|].
      destruct (IH H) as [-> | H']; [now left | now right; right].
Qed.

(** Every key of the attribute dictionary is a lowercased attribute
    name of the tag. *)
Lemma attr_map_keys (a : attrs) (k : string) :
  In k (dict_keys (attr_map a)) ->
  exists name v, In (name, v) a /\ k = Py.lower name.
Proof.
  unfold attr_map.
  assert (G : forall d,
    In k (dict_keys (fold_left
      (fun d kv => dict_set (Py.lower (fst kv)) (or_empty (snd kv)) d) a d)) ->
    In k (dict_keys d)
    \/ exists name v, In (name, v) a /\ k = Py.lower name).
  { induction a as [|[name v] a IH]; intros d H; simpl in *.
    - now left.
    - destruct (IH _ H) as [H' | (n' & v' & Hin & ->)].
      + apply dict_set_keys in H' as [-> | H']; [|now left].
        right. exists name, v. split; [now left | reflexivity].
      + right. exists n', v'. split; [now right | reflexivity]. }
  intros H. destruct (G [] H) as [[] | H']. exact H'.
Qed.

Lemma dict_get_set_same (k v : string) (d : dict) :
  dict_get k (dict_set k v d) = Some v.
Proof.
  induction d as [|[k0 v0] d IH]; simpl.
  - now rewrite String.eqb_refl.
  - destruct (String.eqb_spec k0 k) as [-> | Hne]; simpl.
    + now rewrite String.eqb_refl.
    + destruct (String.eqb_spec k0 k); [contradiction | exact IH].
Qed.

Lemma dict_get_set_other (k k' v : string) (d : dict) :
  k' <> k -> dict_get k' (dict_set k v d) = dict_get k' d.
Proof.
  intros Hne. induction d as [|[k0 v0] d IH]; simpl.
  - destruct (String.eqb_spec k k'); [congruence | reflexivity].
  - destruct (String.eqb_spec k0 k) as [-> | Hne0]; simpl.
    + destruct (String.eqb_spec k k'); [congruence | reflexivity].
    + destruct (String.eqb_spec k0 k'); [reflexivity | exact IH].
Qed.

Lemma attr_map_snoc (a : attrs) (k : string) (v : option string) :
  attr_map (a ++ [(k, v)])%list
  = dict_set (Py.lower k) (or_empty v) (attr_map a).
Proof. unfold attr_map. now rewrite fold_left_app. Qed.

Lemma lookup_last_snoc (key : string) (a : attrs) (k : string)
    (v : option string) :
  lookup_last key (a ++ [(k, v)])%list
  = if String.eqb (Py.lower k) key then Some (or_empty v)
    else lookup_last key a.
Proof.
  induction a as [|[n w] a IH]; simpl.
  - reflexivity.
  - rewrite IH. now destruct (String.eqb (Py.lower k) key).
Qed.

Lemma attr_map_lookup (a : attrs) (key : string) :
  dict_get key (attr_map a) = lookup_last key a.
Proof.
  induction a as [|[k v] a IH] using rev_ind; [reflexivity|].
  rewrite attr_map_snoc, lookup_last_snoc.
  destruct (String.eqb_spec (Py.lower k) key) as [<- | Hne].
  - apply dict_get_set_same.
  - rewrite dict_get_set_other by congruence. exact IH.
Qed.

Lemma lookup_last_none (key : string) (a : attrs) :
  (forall name v, In (name, v) a -> Py.lower name <> key) ->
  lookup_last key a = None.
Proof.
  induction a as [|[n w] a IH]; intros H; [reflexivity|]. simpl.
  rewrite IH by (intros name v Hin; apply (H name v); now right).
  destruct (String.eqb_spec (Py.lower n) key) as [E | _]; [|reflexivity].
  exfalso. apply (H n w); [now left | exact E].
Qed.

Lemma lookup_last_app (key : string) (a1 a2 : attrs) :
  lookup_last key (a1 ++ a2)%list
  = match lookup_last key a2 with
    | Some x => Some x
    | None => lookup_last key a1
    end.
Proof.
  induction a1 as [|[n w] a1 IH]; simpl.
  - now destruct (lookup_last key a2).
  - rewrite IH. now destruct (lookup_last key a2).
Qed.

(** The dictionary entry of a name is the value of the last attribute
    of the tag with that name. *)
Lemma attr_map_last_attr (key name : string) (v : option string)
    (a1 a2 : attrs) :
  Py.lower name = key ->
  (forall name' v', In (name', v') a2 -> Py.lower name' <> key) ->
  dict_get key (attr_map (a1 ++ (name, v) :: a2)%list) = Some (or_empty v).
Proof.
  intros Hk Hlast. rewrite attr_map_lookup, lookup_last_app. simpl.
  rewrite (lookup_last_none key a2 Hlast).
  destruct (String.eqb_spec (Py.lower name) key); [reflexivity | contradiction].
Qed.

Lemma handler_errors_none (tag : string) (a : attrs) :
  no_handlers a -> handler_errors tag (attr_map a) = [].
Proof.
  intros H. unfold handler_errors.
  assert (G : forall ks, (forall k, In k ks -> Py.startswith "on" k = false) ->
    flat_map (fun k =>
      if Py.startswith "on" k
      then ["Inline event handler attribute not allowed: "
            ++ tag ++ "[" ++ k ++ "]"]
      else []) ks = []).
  { induction ks as [|k ks IH]; intros Hk; cbn [flat_map]; [reflexivity|].
    rewrite (Hk k) by now left. cbn [app]. apply IH.
    intros k' Hin. apply Hk. now right. }
  apply G. intros k Hin.
  destruct (attr_map_keys _ _ Hin) as (name & v & Hin' & ->).
  eapply H; eauto.
Qed.

Lemma startswith_head (p q s : string) (a b : ascii) :
  a <> b ->
  Py.startswith (String a p) s = true ->
  Py.startswith (String b q) s = false.
Proof.
  intros Hab H. destruct s as [|c s]; [reflexivity|]. simpl in *.
  apply andb_true_iff in H as [Hc _]. apply Ascii.eqb_eq in Hc. subst c.
  destruct (Ascii.eqb_spec b a); [congruence | reflexivity].
Qed.

Lemma strip_truthy (s : string) :
  Py.truthy (Py.lower (Py.strip s)) = true -> Py.truthy s = true.
Proof. destruct s; [discriminate | reflexivity]. Qed.

Section AnchorFacts.

Variables (errors : list string) (tag : string) (a : attrs).
Hypothesis tag_a : Py.lower tag = "a".

Lemma handle_starttag_anchor :
  handle_starttag errors tag a
  = (errors ++ handler_errors tag (attr_map a)
     ++ anchor_errors (attr_map a))%list.
Proof.
  unfold handle_starttag. rewrite tag_a.
  change (String.eqb "a" "a") with true.
  change (String.eqb "a" "img") with false.
  cbv iota. now rewrite app_nil_r.
Qed.

(** An anchor whose [href] is missing, has no value or is empty gets
    none of the link checks. *)
Lemma anchor_errors_empty_href :
  dict_get_default "href" (attr_map a) = "" ->
  anchor_errors (attr_map a) = [].
Proof. intros E. unfold anchor_errors. rewrite E. reflexivity. Qed.

Lemma anchor_errors_javascript (href : string) :
  dict_get_default "href" (attr_map a) = href ->
  Py.startswith "javascript:" (Py.lower (Py.strip href)) = true ->
  anchor_errors (attr_map a) = [javascript_error; scheme_error href].
Proof.
  intros E Hjs. unfold anchor_errors, is_external, Py.startswith_any.
  rewrite E. cbv zeta. cbn [existsb].
  assert (Ht : Py.truthy href = true).
  { apply strip_truthy.
    destruct (Py.lower (Py.strip href)); [discriminate | reflexivity]. }
  assert (E1 : Py.startswith "http://" (Py.lower (Py.strip href)) = false)
    by (eapply startswith_head; [|exact Hjs]; discriminate).
  assert (E2 : Py.startswith "https://" (Py.lower (Py.strip href)) = false)
    by (eapply startswith_head; [|exact Hjs]; discriminate).
  assert (E3 : Py.startswith "#" (Py.lower (Py.strip href)) = false)
    by (eapply startswith_head; [|exact Hjs]; discriminate).
  rewrite Ht, Hjs, E1, E2, E3. reflexivity.
Qed.

Lemma anchor_errors_scheme (href : string) :
  dict_get "href" (attr_map a) = Some href ->
  href <> "" ->
  Py.startswith "http://" (Py.lower (Py.strip href)) = false ->
  Py.startswith "https://" (Py.lower (Py.strip href)) = false ->
  Py.startswith "#" (Py.lower (Py.strip href)) = false ->
  In (scheme_error href) (anchor_errors (attr_map a)).
Proof.
  intros E Hne E1 E2 E3. unfold anchor_errors, dict_get_default.
  rewrite E. cbn [or_empty]. cbv zeta.
  assert (Ht : Py.truthy href = true)
    by (destruct href; [contradiction | reflexivity]).
  rewrite Ht, E1, E2, E3. cbn [orb negb].
  apply in_or_app. left. apply in_or_app. right. now left.
Qed.

End AnchorFacts.

(** C4. A start tag whose lowercased name is neither a nor img and none
    of whose attribute names begins with on, whatever its case, adds no
    violation; script, iframe and style start tags are such tags. *)
Theorem other_tags_unflagged :
  (forall (errors : list string) (tag : string) (a : attrs),
      Py.lower tag <> "a" -> Py.lower tag <> "img" -> no_handlers a ->
      handle_starttag errors tag a = errors)
  /\ (forall (a : attrs), no_handlers a ->
        feed_events [] [("script", a); ("iframe", a); ("style", a)] = []).
Proof.
  assert (G : forall errors tag a,
    Py.lower tag <> "a" -> Py.lower tag <> "img" -> no_handlers a ->
    handle_starttag errors tag a = errors).
  { intros errors tag a Ha Hi Hn. unfold handle_starttag.
    rewrite handler_errors_none by assumption.
    destruct (String.eqb_spec (Py.lower tag) "a"); [contradiction|].
    destruct (String.eqb_spec (Py.lower tag) "img"); [contradiction|].
    simpl. apply app_nil_r. }
  split; [exact G|].
  intros a Hn. unfold feed_events. simpl.
  rewrite !G; try assumption; reflexivity || discriminate.
Qed.

Lemma other_tags_unflagged_witness :
  Py.lower "SCRIPT" <> "a" /\ Py.lower "SCRIPT" <> "img"
  /\ no_handlers [("src", Some "http://example.com/x.js"); ("async", None)]
  /\ handle_starttag [] "SCRIPT"
       [("src", Some "http://example.com/x.js"); ("async", None)] = [].
Proof.
  assert (H1 : Py.lower "SCRIPT" <> "a") by discriminate.
  assert (H2 : Py.lower "SCRIPT" <> "img") by discriminate.
  assert (H3 : no_handlers
                 [("src", Some "http://example.com/x.js"); ("async", None)]).
  { intros name v [E | [E | []]]; injection E as <- _; reflexivity. }
  split; [exact H1|]. split; [exact H2|]. split; [exact H3|].
  exact (proj1 other_tags_unflagged [] "SCRIPT" _ H1 H2 H3).
Defined.

(** C2, the claim as stated fails: the anchor with a javascript: href
    also gets the scheme violation; and an anchor that has a javascript:
    href followed by a second href gets no violation at all, because the
    attribute dictionary keeps the last value of a repeated attribute. *)
Lemma javascript_href_also_scheme_error :
  Py.lower (fst javascript_anchor) = "a"
  /\ Py.startswith "javascript:"
       (Py.lower (Py.strip
          (dict_get_default "href" (attr_map (snd javascript_anchor))))) = true
  /\ In "Links must be http(s) or fragment only: href=javascript:alert(1)"
        (feed_events [] [javascript_anchor])
  /\ Py.startswith "javascript:"
       (Py.lower (Py.strip "javascript:alert(1)")) = true
  /\ handle_starttag [] "a"
       [("href", Some "javascript:alert(1)"); ("href", Some "#top")] = [].
Proof.
  split; [reflexivity|]. split; [reflexivity|].
  split; [vm_compute; right; right; left; reflexivity|].
  split; reflexivity.
Qed.

(** C2, amended. An a start tag whose last href attribute has a value
    that, trimmed and lowercased, starts with javascript: gets the
    javascript:-URL violation and also the http(s)-or-fragment violation,
    and neither external-link violation, whatever the other attributes
    are; an href that a later href of the same tag overrides is not
    checked.  The tag a with href javascript:alert(1) and onclick x()
    yields exactly three violations, all distinct: the inline handler,
    the javascript: URL and the scheme. *)
Theorem javascript_href_violations :
  (forall (errors : list string) (tag : string) (a1 a2 : attrs)
          (name : string) (v : option string),
      Py.lower tag = "a" ->
      Py.lower name = "href" ->
      (forall name' v', In (name', v') a2 -> Py.lower name' <> "href") ->
      Py.startswith "javascript:" (Py.lower (Py.strip (or_empty v))) = true ->
      handle_starttag errors tag (a1 ++ (name, v) :: a2)%list
      = (errors
         ++ handler_errors tag (attr_map (a1 ++ (name, v) :: a2)%list)
         ++ ["Links must not use javascript: URLs";
             ("Links must be http(s) or fragment only: href="
              ++ or_empty v)%string])%list)
  /\ feed_events [] [javascript_anchor]
     = ["Inline event handler attribute not allowed: a[onclick]";
        "Links must not use javascript: URLs";
        "Links must be http(s) or fragment only: href=javascript:alert(1)"]
  /\ NoDup (feed_events [] [javascript_anchor])
  /\ handle_starttag [] "a"
       [("href", Some "javascript:alert(1)"); ("href", Some "#top")] = [].
Proof.
  split; [|split; [|split]].
  - intros errors tag a1 a2 name v Ht Hk Hlast Hjs.
    rewrite handle_starttag_anchor by assumption.
    rewrite (anchor_errors_javascript _ (or_empty v)); [reflexivity| |exact Hjs].
    unfold dict_get_default.
    now rewrite (attr_map_last_attr "href" name v a1 a2 Hk Hlast).
  - reflexivity.
  - vm_compute. repeat constructor; simpl; intuition discriminate.
  - reflexivity.
Qed.

Lemma javascript_href_violations_witness :
  Py.lower "A" = "a"
  /\ Py.lower "HREF" = "href"
  /\ (forall name' v', In (name', v') [("title", Some "t")] ->
                       Py.lower name' <> "href")
  /\ Py.startswith "javascript:"
       (Py.lower (Py.strip (or_empty (Some " JavaScript:void(0)")))) = true
  /\ handle_starttag [] "A"
       [("href", Some "#top"); ("HREF", Some " JavaScript:void(0)");
        ("title", Some "t")]
     = ["Links must not use javascript: URLs";
        "Links must be http(s) or fragment only: href= JavaScript:void(0)"].
Proof.
  assert (Hlast : forall name' v', In (name', v') [("title", Some "t")] ->
                                   Py.lower name' <> "href").
  { intros name' v' [E | []]. injection E as <- _. discriminate. }
  split; [reflexivity|]. split; [reflexivity|]. split; [exact Hlast|].
  split; [reflexivity|].
  exact (proj1 javascript_href_violations
           [] "A" [("href", Some "#top")] [("title", Some "t")]
           "HREF" (Some " JavaScript:void(0)")
           eq_refl eq_refl Hlast eq_refl).
Defined.

(** C3, the claim as stated fails: an href that is present with the
    empty string as its value starts with none of the three prefixes, and
    the anchor gets no violation; and an ftp href that is followed by a
    second href is present on the tag and is not reported either. *)
Lemma empty_href_unflagged :
  dict_get "href" (attr_map [("href", Some "")]) = Some ""
  /\ Py.startswith "http://" (Py.lower (Py.strip "")) = false
  /\ Py.startswith "https://" (Py.lower (Py.strip "")) = false
  /\ Py.startswith "#" (Py.lower (Py.strip "")) = false
  /\ handle_starttag [] "a" [("href", Some "")] = []
  /\ Py.startswith "http://" (Py.lower (Py.strip "ftp://example.com/f")) = false
  /\ Py.startswith "https://" (Py.lower (Py.strip "ftp://example.com/f")) = false
  /\ Py.startswith "#" (Py.lower (Py.strip "ftp://example.com/f")) = false
  /\ handle_starttag [] "a"
       [("href", Some "ftp://example.com/f"); ("href", Some "#top")] = [].
Proof. repeat split. Qed.

(** C3, amended. An a start tag whose last href attribute has a
    non-empty value whose trimmed, lowercased form starts with none of
    http://, https:// and # gets the http(s)-or-fragment violation,
    whatever the other attributes are; when the last href has the empty
    string as its value, or no value, the tag gets no link violation; an
    href that a later href of the same tag overrides is not checked. *)
Theorem anchor_scheme_violation :
  (forall (errors : list string) (tag : string) (a1 a2 : attrs)
          (name href : string),
      Py.lower tag = "a" ->
      Py.lower name = "href" ->
      (forall name' v', In (name', v') a2 -> Py.lower name' <> "href") ->
      href <> "" ->
      Py.startswith "http://" (Py.lower (Py.strip href)) = false ->
      Py.startswith "https://" (Py.lower (Py.strip href)) = false ->
      Py.startswith "#" (Py.lower (Py.strip href)) = false ->
      In ("Links must be http(s) or fragment only: href=" ++ href)
         (handle_starttag errors tag (a1 ++ (name, Some href) :: a2)%list))
  /\ (forall (errors : list string) (tag : string) (a1 a2 : attrs)
             (name : string) (v : option string),
        Py.lower tag = "a" ->
        Py.lower name = "href" ->
        (forall name' v', In (name', v') a2 -> Py.lower name' <> "href") ->
        or_empty v = "" ->
        handle_starttag errors tag (a1 ++ (name, v) :: a2)%list
        = (errors
           ++ handler_errors tag (attr_map (a1 ++ (name, v) :: a2)%list))%list)
  /\ handle_starttag [] "a" [("href", Some "")] = []
  /\ handle_starttag [] "a"
       [("href", Some "ftp://example.com/f"); ("href", Some "#top")] = [].
Proof.
  split; [|split; [|split; reflexivity]].
  - intros errors tag a1 a2 name href Ht Hk Hlast Hne E1 E2 E3.
    rewrite handle_starttag_anchor by assumption.
    apply in_or_app. right. apply in_or_app. right.
    apply (anchor_errors_scheme _ href); try assumption.
    exact (attr_map_last_attr "href" name (Some href) a1 a2 Hk Hlast).
  - intros errors tag a1 a2 name v Ht Hk Hlast Hv.
    rewrite handle_starttag_anchor by assumption.
    rewrite anchor_errors_empty_href.
    + now rewrite app_nil_r.
    + unfold dict_get_default.
      now rewrite (attr_map_last_attr "href" name v a1 a2 Hk Hlast).
Qed.

Lemma anchor_scheme_violation_witness :
  Py.lower "a" = "a"
  /\ Py.lower "href" = "href"
  /\ (forall name' v', In (name', v') [("title", Some "t")] ->
                       Py.lower name' <> "href")
  /\ "ftp://example.com/f" <> ""
  /\ Py.startswith "http://" (Py.lower (Py.strip "ftp://example.com/f")) = false
  /\ Py.startswith "https://" (Py.lower (Py.strip "ftp://example.com/f")) = false
  /\ Py.startswith "#" (Py.lower (Py.strip "ftp://example.com/f")) = false
  /\ In "Links must be http(s) or fragment only: href=ftp://example.com/f"
        (handle_starttag [] "a"
           [("href", Some "#top"); ("href", Some "ftp://example.com/f");
            ("title", Some "t")]).
Proof.
  assert (Hlast : forall name' v', In (name', v') [("title", Some "t")] ->
                                   Py.lower name' <> "href").
  { intros name' v' [E | []]. injection E as <- _. discriminate. }
  assert (Hne : "ftp://example.com/f" <> "") by discriminate.
  split; [reflexivity|]. split; [reflexivity|]. split; [exact Hlast|].
  split; [exact Hne|].
  split; [reflexivity|]. split; [reflexivity|]. split; [reflexivity|].
  exact (proj1 anchor_scheme_violation
           [] "a" [("href", Some "#top")] [("title", Some "t")]
           "href" "ftp://example.com/f"
           eq_refl eq_refl Hlast Hne eq_refl eq_refl eq_refl).
Defined.

(** ** CSS scope checker *)

Lemma check_selector_unscoped (sel : string) :
  Py.startswith ".chaos-region" sel = false ->
  check_selector sel = [prefix_error sel].
Proof. intros H. unfold check_selector. now rewrite H. Qed.

(** The token loop reports the one bare-element message when a star is
    among the tokens, at the star or at a flagged token before it. *)
Lemma check_tokens_star (sel : string) (tokens : list string) :
  In "*" tokens -> check_tokens sel tokens = [bare_error sel].
Proof.
  induction tokens as [|t0 rest IH]; intros Hin; [destruct Hin|].
  destruct Hin as [-> | Hin]; [reflexivity|].
  specialize (IH Hin). cbn [check_tokens]. cbv zeta.
  destruct (negb (Py.truthy (Py.strip t0))); [exact IH|].
  destruct (Py.contains ["*"; "html"; "body"] (Py.strip t0)); [reflexivity|].
  destruct (Re.match_ re_ident (Py.strip t0)) as [g|]; [|exact IH].
  destruct (negb (Py.startswith_any ["."; "#"; ":"; "["] (Py.strip t0)));
    [|exact IH].
  destruct (negb (String.eqb g "chaos-region")); [reflexivity | exact IH].
Qed.

(** C1, the claim as stated fails: for the style sheet whose selector
    list is the star alone the checker reports the missing prefix, and no
    bare-element violation for any selector. *)
Lemma star_rule_no_bare_error :
  validate_css_scoping "* { margin:0; }"
  = ["All selectors must start with .chaos-region: *"]
  /\ forall sel, ~ In (bare_error sel) (validate_css_scoping "* { margin:0; }").
Proof.
  split; [reflexivity|].
  intros sel [H | []]. discriminate H.
Qed.

(** C1, amended. A selector that does not start with .chaos-region is
    reported for the missing prefix only, so the style sheet whose
    selector list is the star alone gets exactly that one violation; a
    star token gets the bare-element violation when it occurs in a
    selector that starts with .chaos-region, as in .chaos-region *. *)
Theorem star_selector_violations :
  (forall sel : string,
      Py.startswith ".chaos-region" sel = false ->
      check_selector sel = [prefix_error sel])
  /\ (forall sel : string,
        Py.startswith ".chaos-region" sel = true ->
        In "*" (Re.split re_combinator sel) ->
        check_selector sel = [bare_error sel])
  /\ validate_css_scoping "* { margin:0; }" = [prefix_error "*"]
  /\ validate_css_scoping ".chaos-region * { margin:0; }"
     = [bare_error ".chaos-region *"].
Proof.
  split; [exact check_selector_unscoped|]. split; [|split; reflexivity].
  intros sel Hp Hin. unfold check_selector. rewrite Hp. cbn [negb].
  now apply check_tokens_star.
Qed.

Lemma star_selector_violations_witness :
  Py.startswith ".chaos-region" ".chaos-region > *" = true
  /\ In "*" (Re.split re_combinator ".chaos-region > *")
  /\ check_selector ".chaos-region > *" = [bare_error ".chaos-region > *"].
Proof.
  assert (Hin : In "*" (Re.split re_combinator ".chaos-region > *"))
    by (vm_compute; right; right; left; reflexivity).
  split; [reflexivity|]. split; [exact Hin|].
  exact (proj1 (proj2 star_selector_violations)
           ".chaos-region > *" eq_refl Hin).
Defined.

(** ** Change-set validator *)

Lemma contains_In (xs : list string) (x : string) :
  Py.contains xs x = true <-> In x xs.
Proof.
  unfold Py.contains. rewrite existsb_exists. split.
  - intros (y & Hin & E). apply String.eqb_eq in E. now subst.
  - intros H. exists x. split; [exact H | apply String.eqb_refl].
Qed.

(** The illegal files are exactly the changed files outside the allow
    list. *)
Lemma illegal_files_In (files : list string) (f : string) :
  In f (illegal_files files)
  <-> In f files /\ ~ In f ALLOWED_CHANGED_FILES.
Proof.
  unfold illegal_files. rewrite filter_In, negb_true_iff.
  rewrite <- (contains_In ALLOWED_CHANGED_FILES).
  destruct (Py.contains ALLOWED_CHANGED_FILES f); split; intros [H1 H2];
    split; try assumption; try discriminate.
  - now contradiction H2.
  - reflexivity.
Qed.

Lemma allow_errors_illegal (files : list string) (f : string) :
  In f files -> ~ In f ALLOWED_CHANGED_FILES ->
  allow_errors files
  = [allowed_files_error; illegal_files_error (illegal_files files)].
Proof.
  intros Hin Hno. unfold allow_errors.
  destruct (illegal_files files) eqn:E; [|reflexivity].
  assert (H : In f (illegal_files files)) by now apply illegal_files_In.
  rewrite E in H. destruct H.
Qed.

Lemma result_of_ok (errs : list string) :
  ok (result_of errs) = true <-> errors (result_of errs) = [].
Proof. destruct errs; simpl; split; congruence. Qed.

Section ValidatorFacts.

Variable check_output : list string -> result string.
Variable open_read : string -> result string.
Variable starttags : string -> result (list starttag).
Variable base_ref : string.

(** The HTML block extends the list it is given, and what it adds does
    not depend on that list. *)
Lemma validate_html_app (errs : list string) :
  validate_html check_output open_read starttags base_ref errs
  = match validate_html check_output open_read starttags base_ref [] with
    | Ok h => Ok (errs ++ h)%list
    | Raise e => Raise e
    end.
Proof.
  unfold validate_html.
  destruct (read_file_at_ref check_output _ _) as [base_html|e];
    [|reflexivity].
  destruct (read_worktree open_read _) as [head_html|e]; [|reflexivity].
  cbn [bind].
  destruct (split_both base_html head_html)
    as [[[[bb br] ba] [[hb hr] ha]] | [msg | cmd | path | msg]];
    try reflexivity.
  destruct (scan starttags hr) as [found|e]; [|reflexivity]. cbn [bind].
  destruct (negb (String.eqb bb hb) || negb (String.eqb ba ha));
    cbn [app]; [now rewrite <- app_assoc | reflexivity].
Qed.

Lemma validate_css_spec (errs : list string) :
  validate_css open_read errs
  = match read_worktree open_read chaos_css with
    | Ok css => Ok (errs ++ validate_css_scoping css)%list
    | Raise e => Raise e
    end.
Proof. unfold validate_css. now destruct (read_worktree _ _). Qed.

(** The run returns exactly when both blocks do, and then the error list
    is the allow-list messages, then the HTML ones, then the CSS ones. *)
Lemma validate_spec (files : list string) (r : ValidationResult) :
  changed_files check_output base_ref = Ok files ->
  validate check_output open_read starttags base_ref = Ok r
  <-> exists html_errs css_errs,
        html_outcome check_output open_read starttags base_ref files html_errs
        /\ css_outcome open_read files css_errs
        /\ r = result_of (allow_errors files ++ html_errs ++ css_errs).
Proof.
  intros Hf. unfold validate. rewrite Hf. cbn [bind].
  fold (illegal_files files).
  replace (match illegal_files files with
           | [] => []
           | _ :: _ => ([] ++ [allowed_files_error;
                               illegal_files_error (illegal_files files)])%list
           end) with (allow_errors files)
    by (unfold allow_errors; now destruct (illegal_files files)).
  unfold html_outcome, css_outcome.
  destruct (Py.contains files index_html).
  - rewrite validate_html_app.
    destruct (validate_html _ _ _ base_ref []) as [h|e]; cbn [bind].
    + destruct (Py.contains files chaos_css).
      * rewrite validate_css_spec.
        destruct (read_worktree open_read chaos_css) as [css|e]; cbn [bind].
        -- split.
           ++ intros H. injection H as <-. exists h, (validate_css_scoping css).
              split; [reflexivity|]. split; [eauto|].
              unfold result_of. now rewrite <- !app_assoc.
           ++ intros (h' & c' & Hh & (css' & Hc & ->) & ->).
              injection Hh as <-. injection Hc as <-.
              unfold result_of. now rewrite <- !app_assoc.
        -- split; [discriminate|].
           intros (h' & c' & _ & (css' & Hc & _) & _). discriminate.
      * cbn [bind]. split.
        -- intros H. injection H as <-. exists h, [].
           split; [reflexivity|]. split; [reflexivity|].
           unfold result_of. now rewrite app_nil_r.
        -- intros (h' & c' & Hh & -> & ->). injection Hh as <-.
           unfold result_of. now rewrite app_nil_r.
    + split; [discriminate|]. intros (h' & c' & Hh & _). discriminate.
  - cbn [bind]. destruct (Py.contains files chaos_css).
    + rewrite validate_css_spec.
      destruct (read_worktree open_read chaos_css) as [css|e]; cbn [bind].
      * split.
        -- intros H. injection H as <-. exists [], (validate_css_scoping css).
           split; [reflexivity|]. split; [eauto|]. reflexivity.
        -- intros (h' & c' & -> & (css' & Hc & ->) & ->).
           injection Hc as <-. reflexivity.
      * split; [discriminate|].
        intros (h' & c' & _ & (css' & Hc & _) & _). discriminate.
    + cbn [bind]. split.
      * intros H. injection H as <-. exists [], [].
        split; [reflexivity|]. split; [reflexivity|].
        unfold result_of. now rewrite app_nil_r.
      * intros (h' & c' & -> & -> & ->).
        unfold result_of. now rewrite app_nil_r.
Qed.

(** A run that returns had its change set computed. *)
Lemma validate_ok_files (r : ValidationResult) :
  validate check_output open_read starttags base_ref = Ok r ->
  exists files, changed_files check_output base_ref = Ok files.
Proof.
  unfold validate.
  destruct (changed_files check_output base_ref) as [files|e];
    [eauto | discriminate].
Qed.

(** C8. With the HTML target in the change set and a base or current
    document that does not split, the validator appends the one
    malformed-region message and nothing else for the HTML target, and
    the run completes: the violations of the CSS check, which runs when
    the CSS target is in the change set, follow in the same result. *)
Theorem malformed_region_not_fatal
    (files : list string) (base_html head_html : string)
    (css_errs : list string) :
  changed_files check_output base_ref = Ok files ->
  Py.contains files index_html = true ->
  read_file_at_ref check_output ("origin/" ++ base_ref) index_html
  = Ok base_html ->
  read_worktree open_read index_html = Ok head_html ->
  (exists e, split_chaos_region base_html = Raise e)
  \/ (exists e, split_chaos_region head_html = Raise e) ->
  css_outcome open_read files css_errs ->
  validate check_output open_read starttags base_ref
  = Ok (result_of (allow_errors files
                   ++ ["Missing or misordered chaos markers"] ++ css_errs)).
Proof.
  intros Hf Hin Hb Hh Hs Hc.
  apply (validate_spec files _ Hf).
  eexists _, css_errs. split; [|split; [exact Hc | reflexivity]].
  unfold html_outcome. rewrite Hin. unfold validate_html.
  rewrite Hb, Hh. cbn [bind]. unfold split_both.
  destruct Hs as [[e He] | [e He]].
  - rewrite He. rewrite (split_raises_malformed _ _ He). reflexivity.
  - rewrite He. rewrite (split_raises_malformed _ _ He).
    destruct (split_chaos_region base_html) as [b|e'] eqn:Eb.
    + reflexivity.
    + rewrite (split_raises_malformed _ _ Eb). reflexivity.
Qed.



End ValidatorFacts.

Lemma sample_css_outcome :
  css_outcome sample_tree sample_files (validate_css_scoping sample_css).
Proof. exists sample_css. split; reflexivity. Qed.

Lemma malformed_region_not_fatal_witness :
  changed_files sample_git_unmarked "main" = Ok sample_files
  /\ split_chaos_region "<body></body>" = Raise MalformedRegion
  /\ validate sample_git_unmarked sample_tree sample_starttags "main"
     = Ok (result_of
             (allow_errors sample_files
              ++ ["Missing or misordered chaos markers"]
              ++ [bare_error ".chaos-region h1"])).
Proof.
  split; [reflexivity|]. split; [reflexivity|].
  exact (malformed_region_not_fatal
           sample_git_unmarked sample_tree sample_starttags "main"
           sample_files "<body></body>" (sample_page "<body>" sample_region)
           (validate_css_scoping sample_css)
           eq_refl eq_refl eq_refl eq_refl
           (or_introl (ex_intro _ MalformedRegion eq_refl))
           sample_css_outcome).
Defined.


(** [run] strips the output of git, so the base page loses its final
    newline while the page read from the work tree keeps it: a page that
    ends in a newline and is the same on both sides is still reported as
    changed outside the region. *)
Remark final_newline_reported_as_change :
  sample_git ["git"; "show"; "origin/main:" ++ index_html]
  = sample_tree_unchanged index_html
  /\ validate sample_git sample_tree_unchanged sample_starttags "main"
     = Ok {| ok := false;
             errors := [allowed_files_error;
                        illegal_files_error ["README.md"];
                        outside_region_error;
                        bare_error ".chaos-region h1"] |}.
Proof. split; reflexivity. Qed.

(** * Further properties of the code *)

(** ** Occurrences inside concatenations *)

Lemma length_take (n : nat) (s : string) :
  (n <= length s)%nat -> length (Py.take n s) = n.
Proof.
  revert s; induction n as [|n IH]; intros [|c s] H; simpl in *;
    try reflexivity; try lia.
  rewrite IH; [reflexivity | lia].
Qed.

Lemma occurs_at_iff (sub s : string) (m : nat) :
  occurs_at sub s m
  <-> (m <= length s)%nat /\ Py.startswith sub (Py.drop m s) = true.
Proof.
  split.
  - intros H. split; [|now apply occurs_at_drop].
    apply occurs_at_length in H. lia.
  - intros [Hm H]. destruct (startswith_inv _ _ H) as [t Ht].
    exists (Py.take m s), t. split; [|now apply length_take].
    rewrite <- Ht. symmetry. apply take_drop.
Qed.

Lemma drop_app_le (m : nat) (x y : string) :
  (m <= length x)%nat -> Py.drop m (x ++ y) = Py.drop m x ++ y.
Proof.
  revert x; induction m as [|m IH]; intros x H.
  - now rewrite !drop_0.
  - destruct x as [|c x]; simpl in *; [lia|]. apply IH. lia.
Qed.

Lemma drop_app_ge (m : nat) (x y : string) :
  (length x <= m)%nat -> Py.drop m (x ++ y) = Py.drop (m - length x) y.
Proof.
  intros H. replace m with (length x + (m - length x))%nat at 1 by lia.
  now rewrite <- drop_drop, drop_append.
Qed.

Lemma startswith_app_long (sub a y : string) :
  (length sub <= length a)%nat ->
  Py.startswith sub (a ++ y) = Py.startswith sub a.
Proof.
  revert a; induction sub as [|c sub IH]; intros a H; [reflexivity|].
  destruct a as [|d a]; simpl in *; [lia|].
  rewrite IH by lia. reflexivity.
Qed.

Lemma startswith_length (sub s : string) :
  Py.startswith sub s = true -> (length sub <= length s)%nat.
Proof.
  intros H. destruct (startswith_inv _ _ H) as [t ->].
  rewrite length_append. lia.
Qed.

(** An occurrence that ends inside [x] is an occurrence in [x]. *)
Lemma occurs_in_prefix (sub x y : string) (m : nat) :
  occurs_at sub (x ++ y) m -> (m + length sub <= length x)%nat ->
  occurs_at sub x m.
Proof.
  rewrite !occurs_at_iff. intros [_ H] Hm. split; [lia|].
  rewrite drop_app_le in H by lia.
  rewrite startswith_app_long in H; [exact H|].
  rewrite length_drop. lia.
Qed.

Lemma occurs_prefix_extend (sub x y : string) (m : nat) :
  occurs_at sub x m -> occurs_at sub (x ++ y) m.
Proof.
  intros (p & q & -> & Hl). exists p, (q ++ y).
  split; [|exact Hl]. now rewrite !append_assoc.
Qed.

(** An occurrence that begins after [x] is an occurrence in [y]. *)
Lemma occurs_in_suffix (sub x y : string) (m : nat) :
  occurs_at sub (x ++ y) m -> (length x <= m)%nat ->
  occurs_at sub y (m - length x).
Proof.
  rewrite !occurs_at_iff. intros [Hl H] Hm.
  rewrite length_append in Hl. split; [lia|].
  now rewrite drop_app_ge in H by lia.
Qed.

Lemma occurs_suffix_extend (sub x y : string) (m : nat) :
  occurs_at sub y m -> occurs_at sub (x ++ y) (length x + m).
Proof.
  intros (p & q & -> & Hl). exists (x ++ p), q.
  split; [now rewrite !append_assoc|]. rewrite length_append. lia.
Qed.

(** ** The two markers never overlap *)

Lemma marker_head (M s : string) (p : nat) :
  M = CHAOS_START \/ M = CHAOS_END ->
  occurs_at M s p -> Py.startswith "<" (Py.drop p s) = true.
Proof.
  intros HM H. apply occurs_at_drop in H.
  destruct (startswith_inv _ _ H) as [t ->].
  destruct HM as [-> | ->]; reflexivity.
Qed.

Lemma marker_inner (M s : string) (p k : nat) :
  M = CHAOS_START \/ M = CHAOS_END ->
  occurs_at M s p -> (1 <= k)%nat -> (k < length M)%nat ->
  Py.startswith "<" (Py.drop (p + k) s) = false.
Proof.
  intros HM H Hk1 Hk2. apply occurs_at_drop in H.
  destruct (startswith_inv _ _ H) as [t Ht].
  rewrite <- drop_drop, Ht.
  destruct HM as [-> | ->]; simpl in Hk2;
    do 20 (destruct k as [|k]; [try reflexivity; lia|]); lia.
Qed.

Lemma markers_no_overlap (M1 M2 s : string) (p q : nat) :
  M1 = CHAOS_START \/ M1 = CHAOS_END ->
  M2 = CHAOS_START \/ M2 = CHAOS_END ->
  occurs_at M1 s p -> occurs_at M2 s q -> (p < q)%nat ->
  (p + length M1 <= q)%nat.
Proof.
  intros H1 H2 O1 O2 Hlt.
  destruct (Nat.le_gt_cases (p + length M1) q) as [|Hgt]; [assumption|].
  exfalso. pose proof (marker_head M2 s q H2 O2) as Hh.
  replace q with (p + (q - p))%nat in Hh by lia.
  rewrite (marker_inner M1 s p (q - p) H1 O1) in Hh by lia.
  discriminate.
Qed.

Lemma markers_not_together (s : string) (p : nat) :
  occurs_at CHAOS_START s p -> occurs_at CHAOS_END s p -> False.
Proof.
  intros H1 H2. apply occurs_at_drop in H1, H2.
  destruct (startswith_inv _ _ H1) as [t Ht]. rewrite Ht in H2.
  discriminate H2.
Qed.

(** ** Region splitter: the documents that split, and their parts *)

Lemma take_app_exact (n : nat) (a b : string) :
  n = length a -> Py.take n (a ++ b) = a.
Proof. intros ->. apply take_append. Qed.

Lemma three_way_cut (a b : nat) (s : string) :
  (a <= b)%nat ->
  Py.take a s ++ Py.take (b - a) (Py.drop a s) ++ Py.drop b s = s.
Proof.
  intros H. replace (Py.drop b s) with (Py.drop (b - a) (Py.drop a s)).
  - now rewrite !take_drop.
  - rewrite drop_drop. f_equal. lia.
Qed.

Lemma drop_app_exact (n : nat) (a b : string) :
  n = length a -> Py.drop n (a ++ b) = b.
Proof. intros ->. apply drop_append. Qed.

Lemma split_ok_intro (html : string) (n1 n2 : nat) :
  first_at CHAOS_START html n1 -> first_at CHAOS_END html n2 ->
  (n1 < n2)%nat ->
  split_chaos_region html
  = Ok (Py.take (n1 + length CHAOS_START) html,
        Py.take (n2 - (n1 + length CHAOS_START))
                (Py.drop (n1 + length CHAOS_START) html),
        Py.drop n2 html).
Proof.
  intros F1 F2 Hlt. unfold split_chaos_region.
  apply find_first in F1 as E1. apply find_first in F2 as E2.
  rewrite E1, E2.
  destruct (Z.of_nat n1 =? -1)%Z eqn:Ea; [apply Z.eqb_eq in Ea; lia|].
  destruct (Z.of_nat n2 =? -1)%Z eqn:Eb; [apply Z.eqb_eq in Eb; lia|].
  destruct (Z.of_nat n2 <=? Z.of_nat n1)%Z eqn:Ec; [apply Z.leb_le in Ec; lia|].
  cbn [orb].
  assert (Hd : (n1 + length CHAOS_START <= n2)%nat).
  { apply (markers_no_overlap CHAOS_START CHAOS_END html); auto;
      apply F1 || apply F2. }
  assert (Hl : (n2 + length CHAOS_END <= length html)%nat)
    by (apply occurs_at_length, F2).
  rewrite <- Nat2Z.inj_add.
  now rewrite slice_to_nat, slice_nat, slice_from_nat by lia.
Qed.

Lemma split_of_parts (pre region post : string) :
  absent CHAOS_START pre -> absent CHAOS_END pre ->
  absent CHAOS_END region ->
  split_chaos_region (pre ++ CHAOS_START ++ region ++ CHAOS_END ++ post)
  = Ok (pre ++ CHAOS_START, region, CHAOS_END ++ post).
Proof.
  intros As Ae Ar.
  set (html := pre ++ CHAOS_START ++ region ++ CHAOS_END ++ post).
  assert (O1 : occurs_at CHAOS_START html (length pre))
    by (now exists pre, (region ++ CHAOS_END ++ post)).
  assert (O2 : occurs_at CHAOS_END html
                 (length pre + length CHAOS_START + length region)).
  { exists (pre ++ CHAOS_START ++ region), post. split.
    - unfold html. now rewrite !append_assoc.
    - rewrite !length_append. lia. }
  assert (F1 : first_at CHAOS_START html (length pre)).
  { split; [exact O1|]. intros m Hm H.
    apply (As m). apply (occurs_in_prefix _ pre _ m H).
    apply (markers_no_overlap CHAOS_START CHAOS_START html); auto. }
  assert (F2 : first_at CHAOS_END html
                 (length pre + length CHAOS_START + length region)).
  { split; [exact O2|]. intros m Hm H.
    destruct (Nat.lt_trichotomy m (length pre)) as [Hlt | [-> | Hgt]].
    - apply (Ae m). apply (occurs_in_prefix _ pre _ m H).
      apply (markers_no_overlap CHAOS_END CHAOS_START html); auto.
    - exact (markers_not_together html _ O1 H).
    - assert (Hs : (length pre + length CHAOS_START <= m)%nat)
        by (apply (markers_no_overlap CHAOS_START CHAOS_END html); auto).
      assert (He : (m + length CHAOS_END
                    <= length pre + length CHAOS_START + length region)%nat)
        by (apply (markers_no_overlap CHAOS_END CHAOS_END html); auto).
      apply (Ar (m - length (pre ++ CHAOS_START))%nat).
      unfold html in H. rewrite <- append_assoc in H.
      apply occurs_in_suffix in H; [|rewrite length_append; lia].
      apply (occurs_in_prefix _ region (CHAOS_END ++ post)); [exact H|].
      rewrite length_append. lia. }
  rewrite (split_ok_intro html _ _ F1 F2) by (simpl; lia).
  assert (E1 : html = (pre ++ CHAOS_START) ++ region ++ CHAOS_END ++ post)
    by (unfold html; now rewrite !append_assoc).
  assert (E2 : html = ((pre ++ CHAOS_START) ++ region) ++ CHAOS_END ++ post)
    by (unfold html; now rewrite !append_assoc).
  apply f_equal. apply f_equal2; [apply f_equal2|].
  - rewrite E1. apply take_app_exact. now rewrite length_append.
  - rewrite E1, (drop_app_exact _ (pre ++ CHAOS_START))
      by now rewrite length_append.
    apply take_app_exact. lia.
  - rewrite E2. apply drop_app_exact. rewrite !length_append. lia.
Qed.

Lemma split_parts_inv (html before region after : string) :
  split_chaos_region html = Ok (before, region, after) ->
  exists pre post,
    html = pre ++ CHAOS_START ++ region ++ CHAOS_END ++ post
    /\ before = pre ++ CHAOS_START /\ after = CHAOS_END ++ post
    /\ absent CHAOS_START pre /\ absent CHAOS_END pre
    /\ absent CHAOS_END region.
Proof.
  intros H.
  destruct (split_ok_inv _ _ _ _ H)
    as (n1 & n2 & F1 & F2 & Hd & Eb & Er & Ea).
  assert (Hrt : before ++ region ++ after = html)
    by (rewrite Eb, Er, Ea; now apply three_way_cut).
  destruct F1 as [O1 L1]. destruct F2 as [O2 L2].
  destruct O1 as (pre & post1 & E1 & Hl1).
  assert (Hb : before = pre ++ CHAOS_START).
  { rewrite Eb, E1, <- Hl1, <- length_append, <- append_assoc.
    apply take_append. }
  assert (Ha : exists post, after = CHAOS_END ++ post).
  { destruct O2 as (pre2 & post & E2 & Hl2). exists post.
    rewrite Ea, E2, <- Hl2. apply drop_append. }
  destruct Ha as [post Ha]. exists pre, post.
  assert (Eh : html = pre ++ CHAOS_START ++ region ++ CHAOS_END ++ post).
  { rewrite <- Hrt, Hb, Ha. now rewrite !append_assoc. }
  repeat split; try assumption.
  - intros m Hm. apply (L1 m).
    + apply occurs_at_length in Hm. simpl in Hm. lia.
    + rewrite Eh. now apply occurs_prefix_extend.
  - intros m Hm. apply (L2 m).
    + apply occurs_at_length in Hm. simpl in *. lia.
    + rewrite Eh. now apply occurs_prefix_extend.
  - intros m Hm. apply (L2 (length (pre ++ CHAOS_START) + m)%nat).
    + assert (length region = n2 - (n1 + length CHAOS_START))%nat.
      { rewrite Er. apply length_take. rewrite length_drop.
        apply occurs_at_length in O2. lia. }
      apply occurs_at_length in Hm. rewrite length_append. simpl in *. lia.
    + rewrite Eh, <- append_assoc. apply occurs_suffix_extend.
      now apply occurs_prefix_extend.
Qed.

(** X1. A document splits into (before, region, after) exactly when it
    is pre + START + region + END + post with before = pre + START and
    after = END + post, where neither marker occurs in pre and the end
    marker does not occur in region. *)
Theorem split_chaos_region_characterised
    (html before region after : string) :
  split_chaos_region html = Ok (before, region, after)
  <-> exists pre post,
        html = pre ++ CHAOS_START ++ region ++ CHAOS_END ++ post
        /\ before = pre ++ CHAOS_START /\ after = CHAOS_END ++ post
        /\ absent CHAOS_START pre /\ absent CHAOS_END pre
        /\ absent CHAOS_END region.
Proof.
  split; [apply split_parts_inv|].
  intros (pre & post & -> & -> & -> & As & Ae & Ar).
  now apply split_of_parts.
Qed.

(** X2. Replacing the interior of a document that splits by any text
    that does not contain the end marker gives a document that splits
    with the same prefix and suffix and the new interior. *)
Theorem split_chaos_region_interior_edit
    (html before region after region' : string) :
  split_chaos_region html = Ok (before, region, after) ->
  absent CHAOS_END region' ->
  split_chaos_region (before ++ region' ++ after)
  = Ok (before, region', after).
Proof.
  intros H Ar.
  destruct (split_parts_inv _ _ _ _ H)
    as (pre & post & _ & -> & -> & As & Ae & _).
  rewrite append_assoc. now apply split_of_parts.
Qed.

Lemma split_chaos_region_interior_edit_witness :
  split_chaos_region (sample_page "<body>" "old")
  = Ok ("<body>" ++ CHAOS_START, "old", CHAOS_END ++ "</body>")
  /\ absent CHAOS_END sample_region
  /\ split_chaos_region
       (("<body>" ++ CHAOS_START) ++ sample_region ++ CHAOS_END ++ "</body>")
     = Ok ("<body>" ++ CHAOS_START, sample_region, CHAOS_END ++ "</body>").
Proof.
  assert (A : absent CHAOS_END sample_region)
    by (apply find_absent; reflexivity).
  split; [reflexivity|]. split; [exact A|].
  exact (split_chaos_region_interior_edit
           (sample_page "<body>" "old") _ _ _ sample_region eq_refl A).
Defined.

(** ** HTML safety scanner: accumulation and the attribute dictionary *)

Lemma handle_starttag_app (errors : list string) (tag : string) (a : attrs) :
  handle_starttag errors tag a = (errors ++ handle_starttag [] tag a)%list.
Proof. reflexivity. Qed.

Lemma feed_events_flat_map (events : list starttag) :
  forall errors,
    feed_events errors events
    = (errors ++ flat_map (fun ev => handle_starttag [] (fst ev) (snd ev))
                          events)%list.
Proof.
  induction events as [|ev events IH]; intros errors; cbn [feed_events fold_left flat_map].
  - now rewrite app_nil_r.
  - fold (feed_events (handle_starttag errors (fst ev) (snd ev)) events).
    rewrite IH, handle_starttag_app. now rewrite <- app_assoc.
Qed.

(** X3. Feeding start tags only appends: the errors already recorded
    stay in front, every tag contributes its own violations in document
    order whatever came before it, and feeding two runs of tags one after
    the other is feeding their concatenation. *)
Theorem feed_events_accumulates :
  (forall (errors : list string) (events : list starttag),
      feed_events errors events
      = (errors ++ flat_map (fun ev => handle_starttag [] (fst ev) (snd ev))
                            events)%list)
  /\ (forall (errors : list string) (e1 e2 : list starttag),
        feed_events errors (e1 ++ e2)%list
        = feed_events (feed_events errors e1) e2).
Proof.
  split.
  - intros errors events. apply feed_events_flat_map.
  - intros errors e1 e2. unfold feed_events. apply fold_left_app.
Qed.

Lemma dict_get_keys (k v : string) (d : dict) :
  dict_get k d = Some v -> In k (dict_keys d).
Proof.
  induction d as [|[k0 v0] d IH]; simpl; [discriminate|].
  destruct (String.eqb_spec k0 k) as [-> | Hne]; [now left|].
  intros H. right. now apply IH.
Qed.

Lemma dict_set_NoDup (k v : string) (d : dict) :
  NoDup (dict_keys d) -> NoDup (dict_keys (dict_set k v d)).
Proof.
  induction d as [|[k0 v0] d IH]; simpl; intros H.
  - constructor; [intros [] | constructor].
  - inversion H as [|x l Hnot Hnd]; subst.
    destruct (String.eqb_spec k0 k) as [-> | Hne]; simpl.
    + now constructor.
    + constructor; [|now apply IH].
      intros Hin. apply dict_set_keys in Hin as [-> | Hin]; contradiction.
Qed.

Lemma attr_map_NoDup (a : attrs) : NoDup (dict_keys (attr_map a)).
Proof.
  induction a as [|[k v] a IH] using rev_ind; [constructor|].
  rewrite attr_map_snoc. now apply dict_set_NoDup.
Qed.

Lemma lookup_last_present (a : attrs) (name : string) (v : option string) :
  In (name, v) a -> exists x, lookup_last (Py.lower name) a = Some x.
Proof.
  induction a as [|[n w] a IH]; intros Hin; [destruct Hin|]. simpl.
  destruct Hin as [E | Hin].
  - injection E as -> ->. destruct (lookup_last (Py.lower name) a); eauto.
    rewrite String.eqb_refl. eauto.
  - destruct (IH Hin) as [x ->]. eauto.
Qed.

Lemma attr_map_keys_complete (a : attrs) (name : string) (v : option string) :
  In (name, v) a -> In (Py.lower name) (dict_keys (attr_map a)).
Proof.
  intros Hin. destruct (lookup_last_present a name v Hin) as [x Hx].
  rewrite <- attr_map_lookup in Hx. eapply dict_get_keys; eauto.
Qed.

(** X4. The attribute dictionary has one entry per lowercased attribute
    name, and the entry of a name holds the value of the last attribute
    with that name: a repeated attribute overrides the earlier ones. *)
Theorem attr_map_last_wins (a : attrs) :
  NoDup (dict_keys (attr_map a))
  /\ (forall key, dict_get key (attr_map a) = lookup_last key a)
  /\ (forall key, In key (dict_keys (attr_map a))
                  <-> exists name v, In (name, v) a /\ key = Py.lower name).
Proof.
  split; [apply attr_map_NoDup|]. split; [apply attr_map_lookup|].
  intros key. split; [apply attr_map_keys|].
  intros (name & v & Hin & ->). eapply attr_map_keys_complete; eauto.
Qed.

(** ** HTML safety scanner: event handlers *)

Lemma append_cancel_l (a x y : string) : a ++ x = a ++ y -> x = y.
Proof.
  induction a as [|c a IH]; simpl; [auto|].
  intros H. injection H as H. auto.
Qed.

Lemma append_cancel_char (x y : string) (c : ascii) :
  x ++ String c "" = y ++ String c "" -> x = y.
Proof.
  revert y; induction x as [|a x IH]; intros [|b y] H; simpl in H.
  - reflexivity.
  - injection H as _ H. destruct y; discriminate.
  - injection H as _ H. destruct x; discriminate.
  - injection H as -> H. f_equal. auto.
Qed.

Lemma handler_error_inj (tag k k' : string) :
  handler_error tag k = handler_error tag k' -> k = k'.
Proof.
  unfold handler_error. intros H.
  apply append_cancel_l, append_cancel_l, append_cancel_l in H.
  now apply append_cancel_char in H.
Qed.

Lemma handler_errors_In (tag k : string) (m : dict) :
  In (handler_error tag k) (handler_errors tag m)
  <-> In k (dict_keys m) /\ Py.startswith "on" k = true.
Proof.
  unfold handler_errors. rewrite in_flat_map. split.
  - intros (k' & Hin & H). destruct (Py.startswith "on" k') eqn:E.
    + destruct H as [H | []]. apply handler_error_inj in H. now subst.
    + destruct H.
  - intros [Hin E]. exists k. split; [exact Hin|]. rewrite E. now left.
Qed.

Lemma handler_errors_NoDup (tag : string) (m : dict) :
  NoDup (dict_keys m) -> NoDup (handler_errors tag m).
Proof.
  unfold handler_errors. induction (dict_keys m) as [|k ks IH];
    intros H; cbn [flat_map]; [constructor|].
  inversion H as [|x l Hnot Hnd]; subst.
  destruct (Py.startswith "on" k) eqn:E; cbn [app]; [|auto].
  constructor; [|auto].
  intros Hin. apply in_flat_map in Hin as (k' & Hin & H').
  destruct (Py.startswith "on" k'); [|destruct H'].
  destruct H' as [H' | []]. apply handler_error_inj in H'. now subst.
Qed.

(** X5. Whatever the tag, every attribute whose lowercased name starts
    with on is reported by name, and a name is reported once even when
    the attribute is repeated. *)
Theorem handlers_reported :
  (forall (errors : list string) (tag : string) (a : attrs)
          (name : string) (v : option string),
      In (name, v) a -> Py.startswith "on" (Py.lower name) = true ->
      In (handler_error tag (Py.lower name)) (handle_starttag errors tag a))
  /\ (forall (tag : string) (a : attrs),
        NoDup (handler_errors tag (attr_map a))).
Proof.
  split.
  - intros errors tag a name v Hin Hon. unfold handle_starttag.
    apply in_or_app. right. apply in_or_app. left.
    apply handler_errors_In. split; [|exact Hon].
    eapply attr_map_keys_complete; eauto.
  - intros tag a. apply handler_errors_NoDup, attr_map_NoDup.
Qed.

Lemma handlers_reported_witness :
  In ("OnLoad", Some "go()") [("OnLoad", Some "go()"); ("onload", None)]
  /\ Py.startswith "on" (Py.lower "OnLoad") = true
  /\ In (handler_error "body" "onload")
        (handle_starttag [] "body"
           [("OnLoad", Some "go()"); ("onload", None)]).
Proof.
  assert (Hin : In ("OnLoad", Some "go()")
                   [("OnLoad", Some "go()"); ("onload", None)])
    by (left; reflexivity).
  split; [exact Hin|]. split; [reflexivity|].
  exact (proj1 handlers_reported [] "body" _ "OnLoad" (Some "go()")
           Hin eq_refl).
Defined.

Lemma handler_errors_nil_iff (tag : string) (a : attrs) :
  handler_errors tag (attr_map a) = [] <-> no_handlers a.
Proof.
  split; [|apply handler_errors_none].
  intros H name v Hin.
  destruct (Py.startswith "on" (Py.lower name)) eqn:E; [|reflexivity].
  assert (Hm : In (handler_error tag (Py.lower name))
                  (handler_errors tag (attr_map a))).
  { apply handler_errors_In. split; [|exact E].
    eapply attr_map_keys_complete; eauto. }
  rewrite H in Hm. destruct Hm.
Qed.

(** X6. An anchor is judged by its last href alone: when the last
    attribute of an a start tag is an href that is a fragment, the tag
    gets no link violation, whatever the earlier attributes are, earlier
    href attributes included. *)
Theorem earlier_href_not_checked
    (errors : list string) (tag : string) (a : attrs) (k frag : string) :
  Py.lower tag = "a" -> Py.lower k = "href" -> no_handlers a ->
  Py.startswith "#" (Py.lower (Py.strip frag)) = true ->
  handle_starttag errors tag (a ++ [(k, Some frag)])%list = errors.
Proof.
  intros Ht Hk Hn Hf.
  rewrite handle_starttag_anchor by exact Ht.
  rewrite handler_errors_none.
  - assert (Hh : dict_get_default "href"
                   (attr_map (a ++ [(k, Some frag)])%list) = frag).
    { unfold dict_get_default. rewrite attr_map_snoc, Hk.
      now rewrite dict_get_set_same. }
    unfold anchor_errors, is_external, Py.startswith_any.
    rewrite Hh. cbv zeta. cbn [existsb].
    assert (Htr : Py.truthy frag = true).
    { apply strip_truthy.
      destruct (Py.lower (Py.strip frag)); [discriminate | reflexivity]. }
    assert (E0 : Py.startswith "javascript:" (Py.lower (Py.strip frag)) = false)
      by (eapply startswith_head; [|exact Hf]; discriminate).
    assert (E1 : Py.startswith "http://" (Py.lower (Py.strip frag)) = false)
      by (eapply startswith_head; [|exact Hf]; discriminate).
    assert (E2 : Py.startswith "https://" (Py.lower (Py.strip frag)) = false)
      by (eapply startswith_head; [|exact Hf]; discriminate).
    rewrite Htr, E0, E1, E2, Hf. cbn. apply app_nil_r.
  - intros name v Hin. apply in_app_or in Hin as [Hin | [E | []]].
    + eapply Hn; eauto.
    + injection E as <- _. now rewrite Hk.
Qed.

Lemma earlier_href_not_checked_witness :
  Py.lower "a" = "a" /\ Py.lower "href" = "href"
  /\ no_handlers [("href", Some "javascript:alert(1)")]
  /\ Py.startswith "#" (Py.lower (Py.strip "#top")) = true
  /\ handle_starttag []
       "a" ([("href", Some "javascript:alert(1)")]
            ++ [("href", Some "#top")])%list
     = [].
Proof.
  assert (Hn : no_handlers [("href", Some "javascript:alert(1)")]).
  { intros name v [E | []]. injection E as <- _. reflexivity. }
  split; [reflexivity|]. split; [reflexivity|]. split; [exact Hn|].
  split; [reflexivity|].
  exact (earlier_href_not_checked [] "a" _ "href" "#top"
           eq_refl eq_refl Hn eq_refl).
Defined.

(** ** [str.split()] and [str.lower] *)

Lemma append_empty_r (s : string) : s ++ "" = s.
Proof. induction s as [|c s IH]; simpl; [reflexivity | now rewrite IH]. Qed.

Lemma isspace_lower_char (c : ascii) :
  Py.isspace (Py.lower_char c) = Py.isspace c.
Proof. destruct c as [[] [] [] [] [] [] [] []]; reflexivity. Qed.

Lemma truthy_lower (s : string) : Py.truthy (Py.lower s) = Py.truthy s.
Proof. now destruct s. Qed.

Lemma split_ws_unfold (s : string) :
  Py.split_ws s
  = if Py.truthy (fst (Py.words_go s))
    then fst (Py.words_go s) :: snd (Py.words_go s)
    else snd (Py.words_go s).
Proof. unfold Py.split_ws. now destruct (Py.words_go s). Qed.

Lemma words_go_cons (c : ascii) (s : string) :
  Py.words_go (String c s)
  = if Py.isspace c then ("", Py.split_ws s)
    else (String c (fst (Py.words_go s)), snd (Py.words_go s)).
Proof.
  cbn [Py.words_go]. rewrite split_ws_unfold.
  now destruct (Py.words_go s).
Qed.

Lemma words_go_lower (s : string) :
  Py.words_go (Py.lower s)
  = (Py.lower (fst (Py.words_go s)), map Py.lower (snd (Py.words_go s))).
Proof.
  induction s as [|c s IH]; [reflexivity|].
  cbn [Py.lower]. rewrite !words_go_cons, isspace_lower_char.
  rewrite !split_ws_unfold, IH. cbn [fst snd]. rewrite truthy_lower.
  destruct (Py.isspace c); [|reflexivity].
  now destruct (Py.truthy (fst (Py.words_go s))).
Qed.

Lemma split_ws_lower (s : string) :
  Py.split_ws (Py.lower s) = map Py.lower (Py.split_ws s).
Proof.
  rewrite !split_ws_unfold, words_go_lower. cbn [fst snd].
  rewrite truthy_lower.
  now destruct (Py.truthy (fst (Py.words_go s))).
Qed.

Lemma words_go_word_app (w s : string) :
  all_nonspace w = true ->
  Py.words_go (w ++ s)
  = (w ++ fst (Py.words_go s), snd (Py.words_go s)).
Proof.
  induction w as [|c w IH]; intros H.
  - simpl. now destruct (Py.words_go s).
  - cbn [all_nonspace] in H. apply andb_true_iff in H as [Hc Hw].
    apply negb_true_iff in Hc.
    change (String c w ++ s) with (String c (w ++ s)).
    rewrite words_go_cons, Hc, (IH Hw). reflexivity.
Qed.

Lemma words_go_word (w : string) :
  all_nonspace w = true -> Py.words_go w = (w, []).
Proof.
  intros H. pose proof (words_go_word_app w "" H) as E.
  cbn [Py.words_go fst snd] in E. now rewrite !append_empty_r in E.
Qed.

Lemma split_ws_join (ws : list string) :
  Forall is_word ws -> Py.split_ws (Py.join " " ws) = ws.
Proof.
  induction ws as [|x ws IH]; intros H; [reflexivity|].
  inversion H as [|y l [Hx1 Hx2] Hws]; subst.
  destruct ws as [|y ws].
  - cbn [Py.join]. rewrite split_ws_unfold, (words_go_word x Hx2).
    cbn [fst snd]. now rewrite Hx1.
  - change (Py.join " " (x :: y :: ws))
      with (x ++ String " " (Py.join " " (y :: ws))).
    rewrite split_ws_unfold, (words_go_word_app _ _ Hx2), words_go_cons.
    change (Py.isspace " ") with true. cbn [fst snd].
    now rewrite append_empty_r, Hx1, (IH Hws).
Qed.

Lemma words_go_words (s : string) :
  all_nonspace (fst (Py.words_go s)) = true
  /\ Forall is_word (snd (Py.words_go s)).
Proof.
  induction s as [|c s [IH1 IH2]]; [now split|].
  rewrite words_go_cons, split_ws_unfold.
  destruct (Py.isspace c) eqn:Ec; cbn [fst snd].
  - split; [reflexivity|].
    destruct (Py.truthy (fst (Py.words_go s))) eqn:Et; [|exact IH2].
    constructor; [now split | exact IH2].
  - split; [|exact IH2]. cbn [all_nonspace]. now rewrite Ec, IH1.
Qed.

Lemma split_ws_words (s : string) : Forall is_word (Py.split_ws s).
Proof.
  rewrite split_ws_unfold. destruct (words_go_words s) as [H1 H2].
  destruct (Py.truthy (fst (Py.words_go s))) eqn:Et; [|exact H2].
  constructor; [now split | exact H2].
Qed.

(** The token set the rel check computes is the lowercased words of the
    value. *)
Lemma rel_tokens_spec (rel : string) :
  Py.split_ws (Py.lower (Py.join " " (Py.split_ws rel))) = rel_tokens rel.
Proof.
  unfold rel_tokens. rewrite split_ws_lower.
  now rewrite split_ws_join by apply split_ws_words.
Qed.

(** ** HTML safety scanner: the tags that pass *)

Lemma issubset_spec (required present : list string) :
  issubset required present = true
  <-> forall t, In t required -> In t present.
Proof.
  unfold issubset. rewrite forallb_forall.
  split; intros H t Ht; apply contains_In; auto.
Qed.

Lemma target_blank_spec (m : dict) :
  match dict_get "target" m with
  | Some t => String.eqb t "_blank"
  | None => false
  end = true
  <-> dict_get "target" m = Some "_blank".
Proof.
  destruct (dict_get "target" m) as [t|]; [|split; discriminate].
  destruct (String.eqb_spec t "_blank") as [-> | Hne]; split;
    intros H; try reflexivity; try discriminate.
  injection H as ->. contradiction.
Qed.

Lemma anchor_errors_nil_iff (m : dict) :
  anchor_errors m = [] <-> anchor_ok m.
Proof.
  unfold anchor_errors, anchor_ok, is_external, Py.startswith_any.
  cbv zeta. cbn [existsb]. rewrite rel_tokens_spec.
  rewrite <- issubset_spec, <- target_blank_spec.
  destruct (dict_get_default "href" m) as [|c r] eqn:Eh.
  { split; [now left | reflexivity]. }
  cbn [Py.truthy].
  set (h := Py.lower (Py.strip (String c r))).
  set (T := match dict_get "target" m with
            | Some t => String.eqb t "_blank"
            | None => false
            end).
  set (R := issubset required_rel (rel_tokens (or_empty (dict_get "rel" m)))).
  destruct (Py.startswith "javascript:" h) eqn:EJ.
  { assert (E1 : Py.startswith "http://" h = false)
      by (eapply startswith_head; [|exact EJ]; discriminate).
    assert (E2 : Py.startswith "https://" h = false)
      by (eapply startswith_head; [|exact EJ]; discriminate).
    assert (E3 : Py.startswith "#" h = false)
      by (eapply startswith_head; [|exact EJ]; discriminate).
    rewrite E1, E2, E3. cbn. split; [discriminate|].
    intros [H | [H | [H _]]]; discriminate. }
  destruct (Py.startswith "#" h) eqn:EF.
  { assert (E1 : Py.startswith "http://" h = false)
      by (eapply startswith_head; [|exact EF]; discriminate).
    assert (E2 : Py.startswith "https://" h = false)
      by (eapply startswith_head; [|exact EF]; discriminate).
    rewrite E1, E2. cbn. split; [now right; left | reflexivity]. }
  destruct (Py.startswith "http://" h || (Py.startswith "https://" h || false))
    eqn:EX.
  - assert (E' : Py.startswith "http://" h || Py.startswith "https://" h
                 || false = true).
    { destruct (Py.startswith "http://" h), (Py.startswith "https://" h);
        try reflexivity; discriminate. }
    rewrite E'. cbn [negb app].
    destruct T, R; cbn; split; intros H; try discriminate; try reflexivity.
    + right; right. now repeat split.
    + destruct H as [H | [H | (_ & _ & H)]]; discriminate.
    + destruct H as [H | [H | (_ & H & _)]]; discriminate.
    + destruct H as [H | [H | (_ & H & _)]]; discriminate.
  - assert (E' : Py.startswith "http://" h || Py.startswith "https://" h
                 || false = false).
    { destruct (Py.startswith "http://" h), (Py.startswith "https://" h);
        try reflexivity; discriminate. }
    rewrite E'. cbn. split; [discriminate|].
    intros [H | [H | [H _]]]; discriminate.
Qed.

Lemma img_errors_nil_iff (m : dict) :
  img_errors m = [] <-> img_ok m.
Proof.
  unfold img_errors, img_ok. cbv zeta.
  destruct (dict_get_default "src" m) as [|c r] eqn:Es;
    destruct (dict_get "alt" m) as [[|d alt]|] eqn:Ea; cbn [Py.truthy andb negb app].
  - split; [discriminate|]. intros [_ (alt & E & Hne)].
    injection E as <-. contradiction.
  - split; [|reflexivity]. intros _. split; [now left|].
    eexists. split; [reflexivity | discriminate].
  - split; [discriminate|]. intros [_ (alt & E & _)]. discriminate.
  - destruct (Py.startswith "https://" _); cbn; split; try discriminate;
      intros [_ (alt & E & Hne)]; injection E as <-; contradiction.
  - destruct (Py.startswith "https://" _) eqn:E; cbn; split;
      try discriminate; try reflexivity.
    + intros _. split; [now right|].
      eexists. split; [reflexivity | discriminate].
    + intros [[H | H] _]; discriminate.
  - destruct (Py.startswith "https://" _); cbn; split; try discriminate;
      intros [_ (alt & E & _)]; discriminate.
Qed.

(** X7. An a start tag passes the scan with no violation exactly when
    it has no on* attribute and its href is missing or empty, or is a
    fragment, or is an http(s) link with target _blank and the tokens
    nofollow, noopener and noreferrer among the lowercased words of its
    rel value. *)
Theorem anchor_passes_iff (tag : string) (a : attrs) :
  Py.lower tag = "a" ->
  (handle_starttag [] tag a = []
   <-> no_handlers a /\ anchor_ok (attr_map a)).
Proof.
  intros Ht. rewrite (handle_starttag_anchor [] tag a Ht). cbn [app].
  rewrite <- handler_errors_nil_iff, <- anchor_errors_nil_iff.
  split.
  - intros H. apply app_eq_nil in H. exact H.
  - intros [H1 H2]. now rewrite H1, H2.
Qed.

Lemma anchor_passes_iff_witness :
  Py.lower "A" = "a"
  /\ (handle_starttag [] "A"
        [("href", Some "HTTPS://example.com"); ("target", Some "_blank");
         ("rel", Some "NoReferrer  nofollow noopener ugc")] = []
      <-> no_handlers
            [("href", Some "HTTPS://example.com"); ("target", Some "_blank");
             ("rel", Some "NoReferrer  nofollow noopener ugc")]
          /\ anchor_ok
               (attr_map
                  [("href", Some "HTTPS://example.com");
                   ("target", Some "_blank");
                   ("rel", Some "NoReferrer  nofollow noopener ugc")])).
Proof.
  split; [reflexivity|].
  exact (anchor_passes_iff "A" _ eq_refl).
Defined.

(** X8. An img start tag passes the scan with no violation exactly when
    it has no on* attribute, its src is missing, empty or an https URL,
    and it has an alt attribute with a non-empty value. *)
Theorem img_passes_iff (tag : string) (a : attrs) :
  Py.lower tag = "img" ->
  (handle_starttag [] tag a = []
   <-> no_handlers a /\ img_ok (attr_map a)).
Proof.
  intros Ht. unfold handle_starttag. rewrite Ht.
  change (String.eqb "img" "a") with false.
  change (String.eqb "img" "img") with true. cbv iota. cbn [app].
  rewrite <- handler_errors_nil_iff, <- img_errors_nil_iff.
  split.
  - intros H. apply app_eq_nil in H. exact H.
  - intros [H1 H2]. now rewrite H1, H2.
Qed.

Lemma img_passes_iff_witness :
  Py.lower "IMG" = "img"
  /\ (handle_starttag [] "IMG" [("alt", Some "logo")] = []
      <-> no_handlers [("alt", Some "logo")]
          /\ img_ok (attr_map [("alt", Some "logo")])).
Proof.
  split; [reflexivity|].
  exact (img_passes_iff "IMG" _ eq_refl).
Defined.

(** ** CSS scope checker: which selectors are reported *)

Lemma match_ident_head (t g : string) :
  Re.match_ re_ident t = Some g ->
  exists c u, t = String c u /\ Re.is_alpha c = true.
Proof.
  unfold Re.match_, Re.match_len, re_ident. cbn [Re.run].
  destruct t as [|c u]; [discriminate|].
  destruct (Re.is_alpha c) eqn:E; [eauto | discriminate].
Qed.

Lemma alpha_not_qualifier (c : ascii) (u : string) :
  Re.is_alpha c = true ->
  Py.startswith_any ["."; "#"; ":"; "["] (String c u) = false.
Proof.
  intros H. unfold Py.startswith_any. cbn [existsb Py.startswith].
  destruct c as [[] [] [] [] [] [] [] []]; try discriminate H; reflexivity.
Qed.

Lemma qualifier_not_listed (t : string) :
  Py.startswith_any ["."; "#"; ":"; "["] t = true ->
  Py.contains ["*"; "html"; "body"] t = false.
Proof.
  destruct t as [|c u]; [discriminate|].
  unfold Py.startswith_any, Py.contains.
  cbn [existsb Py.startswith String.eqb].
  destruct c as [[] [] [] [] [] [] [] []]; try discriminate; reflexivity.
Qed.

(** One step of the token loop: stop with the bare-element message at a
    bare token, go on otherwise. *)
Lemma check_tokens_step (sel t : string) (rest : list string) :
  check_tokens sel (t :: rest)
  = if is_bare_token t then [bare_error sel] else check_tokens sel rest.
Proof.
  cbn [check_tokens]. cbv zeta. unfold is_bare_token.
  destruct (Py.strip t) as [|c u] eqn:Et; [reflexivity|].
  cbn [Py.truthy negb].
  destruct (Py.contains ["*"; "html"; "body"] (String c u)); [reflexivity|].
  cbn [orb].
  destruct (Re.match_ re_ident (String c u)) as [g|] eqn:Em; [|reflexivity].
  destruct (match_ident_head _ _ Em) as (c' & u' & E & Ha).
  injection E as <- <-. rewrite (alpha_not_qualifier c u Ha). cbn [negb].
  reflexivity.
Qed.

Lemma check_tokens_existsb (sel : string) (tokens : list string) :
  check_tokens sel tokens
  = if existsb is_bare_token tokens then [bare_error sel] else [].
Proof.
  induction tokens as [|t rest IH]; [reflexivity|].
  rewrite check_tokens_step. cbn [existsb].
  destruct (is_bare_token t); [reflexivity | exact IH].
Qed.

Lemma qualified_not_bare (t : string) :
  is_qualified_token t = true -> is_bare_token t = false.
Proof.
  unfold is_qualified_token, is_bare_token. intros H.
  apply orb_true_iff in H as [H | H].
  - apply negb_true_iff in H. destruct (Py.strip t); [reflexivity | discriminate].
  - rewrite (qualifier_not_listed _ H). cbn [orb].
    destruct (Re.match_ re_ident (Py.strip t)) as [g|] eqn:Em; [|reflexivity].
    destruct (match_ident_head _ _ Em) as (c & u & E & Ha).
    rewrite E in H. rewrite (alpha_not_qualifier c u Ha) in H. discriminate.
Qed.

Lemma check_selector_existsb_aux (sel : string) :
  Py.startswith ".chaos-region" sel = true ->
  check_selector sel
  = if existsb is_bare_token (Re.split re_combinator sel)
    then [bare_error sel] else [].
Proof.
  intros Hp. unfold check_selector. rewrite Hp. cbn [negb].
  apply check_tokens_existsb.
Qed.

(** X9. A selector that starts with .chaos-region gets the bare-element
    violation, once, exactly when one of its tokens is the star, html or
    body or begins with an identifier other than chaos-region, and gets
    no violation otherwise; a selector that does not start with
    .chaos-region gets the prefix violation only. *)
Theorem check_selector_outcome (sel : string) :
  check_selector sel
  = if negb (Py.startswith ".chaos-region" sel) then [prefix_error sel]
    else if existsb is_bare_token (Re.split re_combinator sel)
         then [bare_error sel]
         else [].
Proof.
  unfold check_selector.
  destruct (negb (Py.startswith ".chaos-region" sel)); [reflexivity|].
  apply check_tokens_existsb.
Qed.

(** X10. A selector that starts with .chaos-region and whose tokens are
    all empty or begin with a dot, a hash, a colon or an opening bracket
    gets no violation; the prefix test is on characters, so a longer
    class name such as .chaos-regional passes it. *)
Theorem qualified_selector_passes (sel : string) :
  Py.startswith ".chaos-region" sel = true ->
  (forall t, In t (Re.split re_combinator sel) ->
             is_qualified_token t = true) ->
  check_selector sel = [].
Proof.
  intros Hp Hq. rewrite check_selector_existsb_aux by exact Hp.
  destruct (existsb is_bare_token (Re.split re_combinator sel)) eqn:E;
    [|reflexivity].
  apply existsb_exists in E as (t & Hin & Hb).
  rewrite (qualified_not_bare t (Hq t Hin)) in Hb. discriminate.
Qed.

Lemma qualified_selector_passes_witness :
  Py.startswith ".chaos-region" ".chaos-regional > .card:hover" = true
  /\ (forall t, In t (Re.split re_combinator ".chaos-regional > .card:hover")
                -> is_qualified_token t = true)
  /\ check_selector ".chaos-regional > .card:hover" = [].
Proof.
  assert (Hq : forall t,
             In t (Re.split re_combinator ".chaos-regional > .card:hover")
             -> is_qualified_token t = true).
  { intros t Hin. vm_compute in Hin.
    destruct Hin as [<- | [<- | [<- | []]]]; reflexivity. }
  split; [reflexivity|]. split; [exact Hq|].
  exact (qualified_selector_passes ".chaos-regional > .card:hover"
           eq_refl Hq).
Defined.

(** ** CSS scope checker: text without a rule, and the shape of a report *)

Lemma has_char_append (c : ascii) (a b : string) :
  has_char c (a ++ b) = has_char c a || has_char c b.
Proof.
  induction a as [|d a IH]; [reflexivity|]. simpl.
  now rewrite IH, orb_assoc.
Qed.

Lemma sub_go_has_char (c : ascii) (r : Re.regex) (repl s : string) :
  has_char c repl = false -> has_char c s = false ->
  forall skip, has_char c (Re.sub_go r repl skip s) = false.
Proof.
  intros Hr. induction s as [|d s IH]; intros Hs skip; [reflexivity|].
  cbn [has_char] in Hs. apply orb_false_iff in Hs as [Hd Hs].
  cbn [Re.sub_go]. destruct skip as [|k]; [|now apply IH].
  destruct (Re.match_len r (String d s)) as [[|n]|].
  - cbn [has_char]. now rewrite Hd, IH.
  - now rewrite has_char_append, Hr, IH.
  - cbn [has_char]. now rewrite Hd, IH.
Qed.

Lemma strip_comments_and_strings_has_char (c : ascii) (css : string) :
  c <> squote -> c <> Py.dquote ->
  has_char c css = false ->
  has_char c (strip_comments_and_strings css) = false.
Proof.
  intros H1 H2 H. unfold strip_comments_and_strings, Re.sub.
  assert (E1 : has_char c "''" = false).
  { cbn [has_char]. destruct (Ascii.eqb_spec c "'"); [contradiction|].
    reflexivity. }
  assert (E2 : has_char c (Py.quoted "") = false).
  { unfold Py.quoted. cbn [has_char append].
    destruct (Ascii.eqb_spec c Py.dquote); [contradiction | reflexivity]. }
  apply sub_go_has_char; [exact E2|].
  apply sub_go_has_char; [exact E1|].
  now apply sub_go_has_char.
Qed.

Lemma split_go_no_sep (c : ascii) (s : string) :
  has_char c s = false -> Py.split_go (String c "") 0 s = (s, []).
Proof.
  induction s as [|d s IH]; intros H; [reflexivity|].
  cbn [has_char] in H. apply orb_false_iff in H as [Hd Hs].
  cbn [Py.split_go Py.startswith]. rewrite Hd. cbn [andb].
  now rewrite (IH Hs).
Qed.

(** X11. A style sheet without an opening brace has no rule and gets no
    violation, whatever else it contains. *)
Theorem no_brace_no_violation (css : string) :
  has_char "{" css = false -> validate_css_scoping css = [].
Proof.
  intros H. unfold validate_css_scoping, check_blocks, Py.split.
  rewrite split_go_no_sep; [reflexivity|].
  apply strip_comments_and_strings_has_char; [discriminate.. | exact H].
Qed.

Lemma no_brace_no_violation_witness :
  has_char "{" "html, body, * /* a stray list of selectors */" = false
  /\ validate_css_scoping "html, body, * /* a stray list of selectors */" = [].
Proof.
  split; [reflexivity|].
  exact (no_brace_no_violation
           "html, body, * /* a stray list of selectors */" eq_refl).
Defined.

Lemma selectors_of_nonempty (part sel : string) :
  In sel (selectors_of part) -> sel <> "".
Proof.
  unfold selectors_of. intros H.
  apply in_map_iff in H as (s & <- & Hs).
  apply filter_In in Hs as [_ Ht].
  intros E. rewrite E in Ht. discriminate.
Qed.

(** X12. Every violation of the checker is about one non-empty selector
    and is either the prefix message, for a selector that does not start
    with .chaos-region, or the bare-element message, for a selector that
    does; and no selector gets more than one violation. *)
Theorem css_violation_shape :
  (forall (css e : string),
      In e (validate_css_scoping css) ->
      exists sel,
        sel <> ""
        /\ ((e = prefix_error sel
             /\ Py.startswith ".chaos-region" sel = false)
            \/ (e = bare_error sel
                /\ Py.startswith ".chaos-region" sel = true)))
  /\ (forall sel : string, (List.length (check_selector sel) <= 1)%nat).
Proof.
  split.
  - intros css e H. unfold validate_css_scoping, check_blocks in H.
    apply in_flat_map in H as (block & _ & H).
    unfold check_block in H.
    destruct (negb (Py.truthy _)); [destruct H|].
    destruct (Py.startswith "@" _); [destruct H|].
    apply in_flat_map in H as (sel & Hsel & H).
    exists sel. split; [eapply selectors_of_nonempty; eauto|].
    destruct (Py.startswith ".chaos-region" sel) eqn:Ep.
    + right. split; [|reflexivity].
      rewrite (check_selector_existsb_aux sel Ep) in H.
      destruct (existsb _ _); [|destruct H].
      destruct H as [H | []]. now symmetry.
    + left. split; [|reflexivity].
      rewrite (check_selector_unscoped sel Ep) in H.
      destruct H as [H | []]. now symmetry.
  - intros sel. destruct (Py.startswith ".chaos-region" sel) eqn:Ep.
    + rewrite (check_selector_existsb_aux sel Ep).
      destruct (existsb _ _); simpl; lia.
    + rewrite (check_selector_unscoped sel Ep). simpl. lia.
Qed.

Lemma css_violation_shape_witness :
  In (bare_error ".chaos-region h1") (validate_css_scoping sample_css)
  /\ exists sel,
       sel <> ""
       /\ ((bare_error ".chaos-region h1" = prefix_error sel
            /\ Py.startswith ".chaos-region" sel = false)
           \/ (bare_error ".chaos-region h1" = bare_error sel
               /\ Py.startswith ".chaos-region" sel = true)).
Proof.
  assert (Hin : In (bare_error ".chaos-region h1")
                   (validate_css_scoping sample_css))
    by (left; reflexivity).
  split; [exact Hin|].
  exact (proj1 css_violation_shape sample_css _ Hin).
Defined.

(** ** CSS scope checker: what the preprocessing removes *)








Lemma absent_head (sub : string) (s : string) :
  absent sub s -> Py.startswith sub s = false.
Proof.
  intros H. destruct (Py.startswith sub s) eqn:E; [|reflexivity].
  exfalso. apply (H 0%nat). now apply occurs_at_0.
Qed.

(** *** Block comments *)








(** *** String literals *)







Lemma string_body_no_quote (q : ascii) (s : string) :
  has_char q s = false -> has_char "\" s = false -> string_body q s = true.
Proof.
  induction s as [|c s IH]; [reflexivity|]. cbn [has_char string_body].
  intros H1 H2. apply orb_false_iff in H1 as [H1 H1'].
  apply orb_false_iff in H2 as [H2 H2'].
  rewrite Ascii.eqb_sym, H2, Ascii.eqb_sym, H1. cbn [negb andb]. auto.
Qed.









(** ** [str.strip] *)

Lemma rstrip_last (s : string) : last_is_space (Py.rstrip s) = false.
Proof.
  induction s as [|c s IH]; [reflexivity|]. cbn [Py.rstrip].
  destruct (Py.rstrip s) as [|d r].
  - destruct (Py.isspace c) eqn:E; [reflexivity|]. cbn. exact E.
  - exact IH.
Qed.

Lemma lstrip_last (s : string) :
  last_is_space s = false -> last_is_space (Py.lstrip s) = false.
Proof.
  induction s as [|c s IH]; intros H; [reflexivity|]. cbn [Py.lstrip].
  destruct (Py.isspace c) eqn:E; [|exact H].
  apply IH. destruct s; [cbn in H; congruence | exact H].
Qed.

Lemma lstrip_first (s : string) : first_is_space (Py.lstrip s) = false.
Proof.
  induction s as [|c s IH]; [reflexivity|]. cbn [Py.lstrip].
  destruct (Py.isspace c) eqn:E; [exact IH | exact E].
Qed.

Lemma lstrip_fixed (s : string) :
  first_is_space s = false -> Py.lstrip s = s.
Proof. destruct s as [|c s]; [reflexivity|]. cbn. now intros ->. Qed.

Lemma rstrip_fixed (s : string) :
  last_is_space s = false -> Py.rstrip s = s.
Proof.
  induction s as [|c s IH]; intros H; [reflexivity|]. cbn [Py.rstrip].
  destruct s as [|d s].
  - cbn in H. cbn. now rewrite H.
  - rewrite IH by exact H. reflexivity.
Qed.

Lemma strip_ends (s : string) :
  first_is_space (Py.strip s) = false /\ last_is_space (Py.strip s) = false.
Proof.
  unfold Py.strip. split; [apply lstrip_first|].
  apply lstrip_last, rstrip_last.
Qed.

Lemma strip_fixed (s : string) :
  first_is_space s = false -> last_is_space s = false -> Py.strip s = s.
Proof.
  intros H1 H2. unfold Py.strip. rewrite rstrip_fixed by exact H2.
  now apply lstrip_fixed.
Qed.

Lemma last_is_space_drop (n : nat) (s : string) :
  Py.drop n s <> "" -> last_is_space (Py.drop n s) = last_is_space s.
Proof.
  revert s; induction n as [|n IH]; intros s H; [now rewrite drop_0|].
  destruct s as [|c s]; [reflexivity|]. cbn [Py.drop] in *.
  rewrite IH by exact H. destruct s as [|d s]; [|reflexivity].
  destruct n; contradiction H; reflexivity.
Qed.

Section RunFacts.

Variable check_output : list string -> result string.

Lemma run_ok_inv (cmd : list string) (s : string) :
  run check_output cmd = Ok s ->
  exists out, check_output cmd = Ok out /\ s = Py.strip out.
Proof.
  unfold run. destruct (check_output cmd) as [out|e]; [|discriminate].
  intros H. injection H as <-. eauto.
Qed.

(** X13. Whatever the command prints, the text [run] returns has no
    whitespace at either end and stripping it again changes nothing; the
    same holds for every answer of [git] and for the base page that
    [read_file_at_ref] returns. *)
Theorem run_output_stripped :
  (forall (cmd : list string) (s : string),
      run check_output cmd = Ok s ->
      first_is_space s = false /\ last_is_space s = false
      /\ Py.strip s = s)
  /\ (forall (ref path s : string),
        read_file_at_ref check_output ref path = Ok s ->
        first_is_space s = false /\ last_is_space s = false
        /\ Py.strip s = s).
Proof.
  assert (G : forall cmd s, run check_output cmd = Ok s ->
            first_is_space s = false /\ last_is_space s = false
            /\ Py.strip s = s).
  { intros cmd s H. destruct (run_ok_inv cmd s H) as (out & _ & ->).
    destruct (strip_ends out) as [H1 H2].
    split; [exact H1|]. split; [exact H2|]. now apply strip_fixed. }
  split; [exact G|]. intros ref path s. apply G.
Qed.

End RunFacts.

Lemma run_output_stripped_witness :
  run sample_git ["git"; "show"; "origin/main:" ++ index_html]
  = Ok (sample_page "<body>" "old")
  /\ first_is_space (sample_page "<body>" "old") = false
  /\ last_is_space (sample_page "<body>" "old") = false
  /\ Py.strip (sample_page "<body>" "old") = sample_page "<body>" "old".
Proof.
  split; [reflexivity|].
  exact (proj1 (run_output_stripped sample_git)
           ["git"; "show"; "origin/main:" ++ index_html]
           (sample_page "<body>" "old") eq_refl).
Defined.

(** ** Change-set validator: when a run returns, and when it passes *)

Lemma allow_errors_nil_iff (files : list string) :
  allow_errors files = [] <-> forall f, In f files -> In f ALLOWED_CHANGED_FILES.
Proof.
  split.
  - intros H f Hin.
    destruct (Py.contains ALLOWED_CHANGED_FILES f) eqn:E;
      [now apply contains_In|].
    assert (Hno : ~ In f ALLOWED_CHANGED_FILES).
    { intros Hc. apply contains_In in Hc. congruence. }
    rewrite (allow_errors_illegal files f Hin Hno) in H. discriminate.
  - intros H. unfold allow_errors.
    destruct (illegal_files files) as [|f l] eqn:E; [reflexivity|].
    assert (Hin : In f (illegal_files files)) by (rewrite E; now left).
    apply illegal_files_In in Hin as [Hin Hno]. contradiction (Hno (H f Hin)).
Qed.

Lemma scan_spec (starttags : string -> result (list starttag))
    (region : string) :
  scan starttags region
  = match starttags region with
    | Ok events =>
        Ok (flat_map (fun ev => handle_starttag [] (fst ev) (snd ev)) events)
    | Raise e => Raise e
    end.
Proof.
  unfold scan. destruct (starttags region) as [events|e]; [|reflexivity].
  cbn [bind]. now rewrite feed_events_flat_map.
Qed.

Lemma html_violations_nil_iff (starttags : string -> result (list starttag))
    (base_html head_html : string) :
  html_violations starttags base_html head_html = Ok []
  <-> exists before region region' after events,
        split_chaos_region base_html = Ok (before, region, after)
        /\ split_chaos_region head_html = Ok (before, region', after)
        /\ starttags region' = Ok events
        /\ flat_map (fun ev => handle_starttag [] (fst ev) (snd ev)) events
           = [].
Proof.
  unfold html_violations. split.
  - destruct (split_chaos_region base_html) as [[[bb br] ba]|e];
      [|discriminate].
    destruct (split_chaos_region head_html) as [[[hb hr] ha]|e];
      [|discriminate].
    rewrite scan_spec.
    destruct (starttags hr) as [events|e] eqn:Es; [|discriminate].
    cbn [bind].
    destruct (String.eqb_spec bb hb) as [<- | Hb]; [|discriminate].
    destruct (String.eqb_spec ba ha) as [<- | Ha]; [|discriminate].
    cbn [andb app]. intros H. injection H as H.
    now exists bb, br, hr, ba, events.
  - intros (b & r & r' & a & events & -> & -> & Es & H).
    now rewrite scan_spec, Es, H, !String.eqb_refl.
Qed.

Section ValidatorRuns.

Variable check_output : list string -> result string.
Variable open_read : string -> result string.
Variable starttags : string -> result (list starttag).
Variable base_ref : string.

(** The page [read_file_at_ref] returns is the output of git show with
    the whitespace at its two ends removed. *)
Lemma read_file_at_ref_inv (ref path s : string) :
  read_file_at_ref check_output ref path = Ok s
  <-> exists raw,
        check_output ["git"; "show"; ref ++ ":" ++ path] = Ok raw
        /\ s = Py.strip raw.
Proof.
  unfold read_file_at_ref, run.
  destruct (check_output _) as [raw|e]; cbn [bind]; split.
  - intros H. injection H as <-. eauto.
  - intros (raw' & H & ->). now injection H as <-.
  - discriminate.
  - intros (raw' & H & _). discriminate.
Qed.

(** The HTML block, read by read: it raises what a read raises and
    otherwise gives the outcome of the two pages. *)
Lemma validate_html_spec :
  validate_html check_output open_read starttags base_ref []
  = match read_file_at_ref check_output ("origin/" ++ base_ref) index_html
    with
    | Raise e => Raise e
    | Ok base_html =>
        match read_worktree open_read index_html with
        | Raise e => Raise e
        | Ok head_html => html_violations starttags base_html head_html
        end
    end.
Proof.
  unfold validate_html, html_violations, split_both.
  destruct (read_file_at_ref _ _ _) as [base_html|e]; [|reflexivity].
  destruct (read_worktree _ _) as [head_html|e]; [|reflexivity].
  cbn [bind].
  destruct (split_chaos_region base_html) as [[[bb br] ba]|e] eqn:Eb;
    cbn [bind].
  - destruct (split_chaos_region head_html) as [[[hb hr] ha]|e] eqn:Eh;
      cbn [bind].
    + destruct (scan starttags hr) as [found|e]; [|reflexivity].
      cbn [bind]. now destruct (String.eqb bb hb), (String.eqb ba ha).
    + now rewrite (split_raises_malformed _ _ Eh).
  - now rewrite (split_raises_malformed _ _ Eb).
Qed.

(** The outcome of two pages is a list of violations unless both split
    and the tokenizer raises on the current interior. *)
Lemma html_violations_returns (base_html head_html : string) :
  (exists h, html_violations starttags base_html head_html = Ok h)
  <-> (forall bb br ba hb hr ha,
          split_chaos_region base_html = Ok (bb, br, ba) ->
          split_chaos_region head_html = Ok (hb, hr, ha) ->
          exists events, starttags hr = Ok events).
Proof.
  unfold html_violations.
  destruct (split_chaos_region base_html) as [[[bb br] ba]|e].
  - destruct (split_chaos_region head_html) as [[[hb hr] ha]|e].
    + rewrite scan_spec. split.
      * intros [h H] bb' br' ba' hb' hr' ha' E1 E2.
        injection E2 as <- <- <-.
        destruct (starttags hr) as [events|e]; [eauto | discriminate].
      * intros H. destruct (H _ _ _ _ _ _ eq_refl eq_refl) as [events ->].
        cbn [bind]. eauto.
    + split; [intros _ ? ? ? ? ? ? _ E; discriminate | eauto].
  - split; [intros _ ? ? ? ? ? ? E; discriminate | eauto].
Qed.

(** X14. A run returns a result exactly when the change set could be
    computed, every page or style sheet it then needs could be read and,
    where both pages split, the tokenizer did not raise on the current
    interior.  An exception of [changed_files] and an exception of the
    tokenizer are raised by the run: a failed fetch or a page the
    tokenizer rejects is never turned into a verdict. *)
Theorem validate_returns_iff :
  ((exists r, validate check_output open_read starttags base_ref = Ok r)
   <-> exists files,
         changed_files check_output base_ref = Ok files
         /\ (Py.contains files index_html = true ->
             exists base_html head_html,
               read_file_at_ref check_output ("origin/" ++ base_ref) index_html
               = Ok base_html
               /\ read_worktree open_read index_html = Ok head_html
               /\ (forall bb br ba hb hr ha,
                      split_chaos_region base_html = Ok (bb, br, ba) ->
                      split_chaos_region head_html = Ok (hb, hr, ha) ->
                      exists events, starttags hr = Ok events))
         /\ (Py.contains files chaos_css = true ->
             exists css, read_worktree open_read chaos_css = Ok css))
  /\ (forall e, changed_files check_output base_ref = Raise e ->
                validate check_output open_read starttags base_ref = Raise e)
  /\ (forall files base_html head_html bb br ba hb hr ha e,
        changed_files check_output base_ref = Ok files ->
        Py.contains files index_html = true ->
        read_file_at_ref check_output ("origin/" ++ base_ref) index_html
        = Ok base_html ->
        read_worktree open_read index_html = Ok head_html ->
        split_chaos_region base_html = Ok (bb, br, ba) ->
        split_chaos_region head_html = Ok (hb, hr, ha) ->
        starttags hr = Raise e ->
        validate check_output open_read starttags base_ref = Raise e).
Proof.
  split; [split|split].
  - intros [r Hr]. destruct (validate_ok_files _ _ _ _ r Hr) as [files Hf].
    exists files. split; [exact Hf|].
    apply (validate_spec _ _ _ _ files r Hf) in Hr.
    destruct Hr as (h & c & Hh & Hc & _).
    unfold html_outcome, css_outcome in *. split.
    + intros E. rewrite E, validate_html_spec in Hh.
      destruct (read_file_at_ref _ _ _) as [b|]; [|discriminate].
      destruct (read_worktree _ index_html) as [hd|]; [|discriminate].
      exists b, hd. split; [reflexivity|]. split; [reflexivity|].
      apply html_violations_returns. eauto.
    + intros E. rewrite E in Hc. destruct Hc as (css & Hc & _). eauto.
  - intros (files & Hf & Hh & Hc).
    assert (H1 : exists h, html_outcome check_output open_read starttags
                             base_ref files h).
    { unfold html_outcome. destruct (Py.contains files index_html); [|eauto].
      destruct (Hh eq_refl) as (b & hd & Eb & Eh & Ht).
      rewrite validate_html_spec, Eb, Eh.
      now apply html_violations_returns. }
    assert (H2 : exists c, css_outcome open_read files c).
    { unfold css_outcome. destruct (Py.contains files chaos_css); [|eauto].
      destruct (Hc eq_refl) as (css & Ec). eauto. }
    destruct H1 as [h H1]. destruct H2 as [c H2].
    eexists. apply (validate_spec _ _ _ _ files _ Hf).
    exists h, c. split; [exact H1|]. split; [exact H2 | reflexivity].
  - intros e He. unfold validate. now rewrite He.
  - intros files base_html head_html bb br ba hb hr ha e
           Hf Hin Hb Hh Sb Sh Ht.
    unfold validate. rewrite Hf. cbn [bind]. rewrite Hin.
    rewrite validate_html_app, validate_html_spec, Hb, Hh.
    unfold html_violations. rewrite Sb, Sh, scan_spec, Ht. reflexivity.
Qed.

(** X15. A run passes exactly when every changed file is on the allow
    list, and, if the page changed, the output of git show for the base
    page, once stripped, and the current page both split with the same
    prefix and the same suffix and the tokenizer returns start tags for
    the current interior none of which has a violation, and, if the style
    sheet changed, it has no violation. *)
Theorem validate_passes_iff :
  (exists r, validate check_output open_read starttags base_ref = Ok r
             /\ ok r = true)
  <-> exists files,
        changed_files check_output base_ref = Ok files
        /\ (forall f, In f files -> In f ALLOWED_CHANGED_FILES)
        /\ (Py.contains files index_html = true ->
            exists raw head_html before region region' after events,
              check_output
                ["git"; "show"; ("origin/" ++ base_ref) ++ ":" ++ index_html]
              = Ok raw
              /\ read_worktree open_read index_html = Ok head_html
              /\ split_chaos_region (Py.strip raw)
                 = Ok (before, region, after)
              /\ split_chaos_region head_html = Ok (before, region', after)
              /\ starttags region' = Ok events
              /\ flat_map (fun ev => handle_starttag [] (fst ev) (snd ev))
                          events = [])
        /\ (Py.contains files chaos_css = true ->
            exists css, read_worktree open_read chaos_css = Ok css
                        /\ validate_css_scoping css = []).
Proof.
  split.
  - intros (r & Hr & Hok).
    destruct (validate_ok_files _ _ _ _ r Hr) as [files Hf].
    exists files. split; [exact Hf|].
    apply (validate_spec _ _ _ _ files r Hf) in Hr.
    destruct Hr as (h & c & Hh & Hc & ->).
    apply result_of_ok in Hok. cbn [errors result_of] in Hok.
    apply app_eq_nil in Hok as [Ha Hok].
    apply app_eq_nil in Hok as [-> ->].
    split; [now apply allow_errors_nil_iff|].
    unfold html_outcome, css_outcome in *. split.
    + intros E. rewrite E, validate_html_spec in Hh.
      destruct (read_file_at_ref _ _ _) as [b|] eqn:Eb; [|discriminate].
      destruct (read_worktree _ index_html) as [hd|]; [|discriminate].
      apply read_file_at_ref_inv in Eb as (raw & Eraw & ->).
      apply html_violations_nil_iff in Hh.
      destruct Hh as (bf & rg & rg' & af & events & H1 & H2 & H3 & H4).
      exists raw, hd, bf, rg, rg', af, events. now repeat split.
    + intros E. rewrite E in Hc. destruct Hc as (css & Hc & Hv). eauto.
  - intros (files & Hf & Hall & Hh & Hc).
    exists (result_of []). split; [|reflexivity].
    apply (validate_spec _ _ _ _ files _ Hf). exists [], [].
    split; [|split].
    + unfold html_outcome. destruct (Py.contains files index_html);
        [|reflexivity].
      destruct (Hh eq_refl) as (raw & hd & bf & rg & rg' & af & events
                                & Eraw & Eh & H1 & H2 & H3 & H4).
      assert (Eb : read_file_at_ref check_output ("origin/" ++ base_ref)
                     index_html = Ok (Py.strip raw))
        by (apply read_file_at_ref_inv; eauto).
      rewrite validate_html_spec, Eb, Eh.
      apply html_violations_nil_iff.
      now exists bf, rg, rg', af, events.
    + unfold css_outcome. destruct (Py.contains files chaos_css);
        [|reflexivity].
      destruct (Hc eq_refl) as (css & Ec & Hv). exists css. now split.
    + apply allow_errors_nil_iff in Hall. now rewrite Hall.
Qed.

End ValidatorRuns.

Lemma validate_returns_iff_witness :
  changed_files sample_git "main" = Ok sample_files
  /\ split_chaos_region (sample_page "<body>" sample_marked_region)
     = Ok ("<body>" ++ CHAOS_START, sample_marked_region,
           CHAOS_END ++ "</body>")
  /\ sample_starttags sample_marked_region
     = Raise (AssertionError "unknown status keyword 'foo' in marked section")
  /\ validate sample_git sample_tree_marked sample_starttags "main"
     = Raise (AssertionError "unknown status keyword 'foo' in marked section").
Proof.
  split; [reflexivity|]. split; [reflexivity|]. split; [reflexivity|].
  exact (proj2 (proj2 (validate_returns_iff
                         sample_git sample_tree_marked sample_starttags "main"))
           sample_files (sample_page "<body>" "old")
           (sample_page "<body>" sample_marked_region)
           ("<body>" ++ CHAOS_START) "old" (CHAOS_END ++ "</body>")
           ("<body>" ++ CHAOS_START) sample_marked_region
           (CHAOS_END ++ "</body>") _
           eq_refl eq_refl eq_refl eq_refl eq_refl eq_refl eq_refl).
Defined.

(** ** Change-set validator: the page outside the region *)

Lemma split_after_last (html before region after : string) :
  split_chaos_region html = Ok (before, region, after) ->
  last_is_space after = last_is_space html.
Proof.
  intros H.
  destruct (split_ok_inv _ _ _ _ H) as (n1 & n2 & _ & [O2 _] & _ & _ & _ & ->).
  apply last_is_space_drop. apply occurs_at_drop in O2.
  destruct (Py.drop n2 html); [discriminate O2 | discriminate].
Qed.

Section PageFacts.

Variable check_output : list string -> result string.
Variable open_read : string -> result string.
Variable starttags : string -> result (list starttag).
Variable base_ref : string.

(** A base page that was stripped and a current page that ends with
    whitespace never have the same suffix. *)
Lemma stripped_suffix_differs (raw head_html bb br ba hb hr ha : string) :
  split_chaos_region (Py.strip raw) = Ok (bb, br, ba) ->
  split_chaos_region head_html = Ok (hb, hr, ha) ->
  last_is_space head_html = true ->
  ba <> ha.
Proof.
  intros Sb Sh Hsp E.
  pose proof (split_after_last _ _ _ _ Sb) as L1.
  pose proof (split_after_last _ _ _ _ Sh) as L2.
  destruct (strip_ends raw) as [_ Hl].
  rewrite E, L2, Hsp, Hl in L1. discriminate.
Qed.

(** X16. [run] strips the base page but the current page is read as it
    is, so when the current page ends with a whitespace character, a
    final newline for one, and both pages split, the run always reports
    the outside-the-region violation, even for a page that did not
    change. *)
Theorem final_whitespace_always_reported
    (files : list string) (base_html head_html : string)
    (bb br ba hb hr ha : string) (r : ValidationResult) :
  changed_files check_output base_ref = Ok files ->
  Py.contains files index_html = true ->
  read_file_at_ref check_output ("origin/" ++ base_ref) index_html
  = Ok base_html ->
  read_worktree open_read index_html = Ok head_html ->
  split_chaos_region base_html = Ok (bb, br, ba) ->
  split_chaos_region head_html = Ok (hb, hr, ha) ->
  last_is_space head_html = true ->
  validate check_output open_read starttags base_ref = Ok r ->
  In outside_region_error (errors r).
Proof.
  intros Hf Hin Hb Hh Sb Sh Hsp Hr.
  apply (validate_spec _ _ _ _ files r Hf) in Hr.
  destruct Hr as (h & c & Ho & _ & ->). cbn [errors result_of].
  unfold html_outcome in Ho.
  rewrite Hin, validate_html_spec, Hb, Hh in Ho.
  unfold html_violations in Ho. rewrite Sb, Sh in Ho.
  destruct (scan starttags hr) as [found|e]; [|discriminate].
  cbn [bind] in Ho. injection Ho as <-.
  apply in_or_app. right. apply in_or_app. left.
  apply read_file_at_ref_inv in Hb as (raw & _ & ->).
  pose proof (stripped_suffix_differs _ _ _ _ _ _ _ _ Sb Sh Hsp) as Hne.
  destruct (String.eqb_spec ba ha); [contradiction|].
  rewrite andb_false_r. apply in_or_app. left. now left.
Qed.

(** X17. When the current page is the base page, as [read_file_at_ref]
    returns it, that is the output of git show once stripped, with its
    interior replaced by a text that does not contain the end marker, and
    the tokenizer returns start tags for the new interior, the HTML block
    reports exactly the violations of those start tags: no
    malformed-region and no outside-the-region message. *)
Theorem interior_edit_only_scanned
    (files : list string) (raw before region after region' : string)
    (events : list starttag) (css_errs : list string) :
  changed_files check_output base_ref = Ok files ->
  Py.contains files index_html = true ->
  check_output ["git"; "show"; ("origin/" ++ base_ref) ++ ":" ++ index_html]
  = Ok raw ->
  split_chaos_region (Py.strip raw) = Ok (before, region, after) ->
  read_worktree open_read index_html = Ok (before ++ region' ++ after) ->
  absent CHAOS_END region' ->
  starttags region' = Ok events ->
  css_outcome open_read files css_errs ->
  validate check_output open_read starttags base_ref
  = Ok (result_of
          (allow_errors files
           ++ flat_map (fun ev => handle_starttag [] (fst ev) (snd ev)) events
           ++ css_errs)).
Proof.
  intros Hf Hin Hraw Sb Hh Ha Ht Hc.
  apply (validate_spec _ _ _ _ files _ Hf).
  eexists _, css_errs.
  split; [|split; [exact Hc | reflexivity]].
  assert (Hb : read_file_at_ref check_output ("origin/" ++ base_ref)
                 index_html = Ok (Py.strip raw))
    by (apply (read_file_at_ref_inv check_output); eauto).
  unfold html_outcome. rewrite Hin, validate_html_spec, Hb, Hh.
  unfold html_violations. rewrite Sb.
  destruct (split_parts_inv _ _ _ _ Sb)
    as (pre & post & _ & -> & -> & As & Ae & _).
  rewrite append_assoc, (split_of_parts pre region' post As Ae Ha).
  rewrite scan_spec, Ht. cbn [bind].
  now rewrite !String.eqb_refl.
Qed.

End PageFacts.

Lemma final_whitespace_always_reported_witness :
  read_file_at_ref sample_git ("origin/" ++ "main") index_html
  = Ok (sample_page "<body>" "old")
  /\ read_worktree sample_tree_unchanged index_html
     = Ok (sample_page "<body>" "old" ++ nl)
  /\ last_is_space (sample_page "<body>" "old" ++ nl) = true
  /\ In outside_region_error
        (errors (result_of [allowed_files_error;
                            illegal_files_error ["README.md"];
                            outside_region_error;
                            bare_error ".chaos-region h1"])).
Proof.
  split; [reflexivity|]. split; [reflexivity|]. split; [reflexivity|].
  exact (final_whitespace_always_reported
           sample_git sample_tree_unchanged sample_starttags "main"
           sample_files (sample_page "<body>" "old")
           (sample_page "<body>" "old" ++ nl)
           ("<body>" ++ CHAOS_START) "old" (CHAOS_END ++ "</body>")
           ("<body>" ++ CHAOS_START) "old" (CHAOS_END ++ "</body>" ++ nl)
           _ eq_refl eq_refl eq_refl eq_refl eq_refl eq_refl eq_refl
           eq_refl).
Defined.

Lemma interior_edit_only_scanned_witness :
  split_chaos_region (Py.strip (sample_page "<body>" "old" ++ nl))
  = Ok ("<body>" ++ CHAOS_START, "old", CHAOS_END ++ "</body>")
  /\ absent CHAOS_END sample_region
  /\ sample_starttags sample_region = Ok [("b", [("onclick", Some "go()")])]
  /\ validate sample_git sample_tree sample_starttags "main"
     = Ok (result_of (allow_errors sample_files
                      ++ [handler_error "b" "onclick"]
                      ++ validate_css_scoping sample_css)).
Proof.
  assert (A : absent CHAOS_END sample_region)
    by (apply find_absent; reflexivity).
  split; [reflexivity|]. split; [exact A|]. split; [reflexivity|].
  exact (interior_edit_only_scanned
           sample_git sample_tree sample_starttags "main" sample_files
           (sample_page "<body>" "old" ++ nl)
           ("<body>" ++ CHAOS_START) "old" (CHAOS_END ++ "</body>")
           sample_region [("b", [("onclick", Some "go()")])]
           (validate_css_scoping sample_css)
           eq_refl eq_refl eq_refl eq_refl eq_refl A eq_refl
           sample_css_outcome).
Defined.

(** ** The change set *)

Lemma not_linebreak_not_cr (c : ascii) :
  is_linebreak c = false -> (Py.code c =? 13)%nat = false.
Proof.
  unfold is_linebreak, Py.between. intros H.
  destruct (Nat.eqb_spec (Py.code c) 13) as [E|]; [|reflexivity].
  rewrite E in H. discriminate H.
Qed.

Lemma splitlines_go_no_linebreak (s : string) :
  (forall l, fst (splitlines_go s) = Some l -> no_linebreak l = true)
  /\ (forall l, In l (snd (splitlines_go s)) -> no_linebreak l = true).
Proof.
  induction s as [|c s [IH1 IH2]]; [split; [discriminate | intros l []]|].
  cbn [splitlines_go]. cbv zeta.
  destruct ((Py.code c =? 13)%nat && Py.startswith (String Re.newline "") s);
    [now split|].
  destruct (is_linebreak c) eqn:Ec; cbn [fst snd].
  - split; [intros l H; now injection H as <-|].
    intros l Hl. unfold all_lines in Hl.
    destruct (fst (splitlines_go s)) as [l0|] eqn:E0; [|auto].
    destruct Hl as [<- | Hl]; auto.
  - split; [|exact IH2]. intros l H. injection H as <-.
    cbn [no_linebreak]. rewrite Ec. cbn [negb andb].
    destruct (fst (splitlines_go s)) as [l0|]; [auto | reflexivity].
Qed.

Lemma splitlines_no_linebreak (s l : string) :
  In l (splitlines s) -> no_linebreak l = true.
Proof.
  unfold splitlines, all_lines. destruct (splitlines_go_no_linebreak s) as [H1 H2].
  destruct (fst (splitlines_go s)) as [l0|] eqn:E0; [|auto].
  intros [<- | Hl]; auto.
Qed.

Lemma splitlines_go_line (c : ascii) (n s : string) :
  no_linebreak (String c n) = true ->
  splitlines_go (String c n ++ s)
  = (Some (String c n ++ or_empty (fst (splitlines_go s))),
     snd (splitlines_go s)).
Proof.
  revert c; induction n as [|d n IH]; intros c H;
    cbn [no_linebreak] in H; apply andb_true_iff in H as [Hc Hn];
    apply negb_true_iff in Hc;
    change (String c ?x ++ s) with (String c (x ++ s));
    cbn [splitlines_go]; cbv zeta;
    rewrite (not_linebreak_not_cr c Hc), Hc; cbn [andb].
  - reflexivity.
  - now rewrite (IH d Hn).
Qed.

Lemma splitlines_go_last (c : ascii) (n : string) :
  no_linebreak (String c n) = true ->
  splitlines_go (String c n) = (Some (String c n), []).
Proof.
  intros H. pose proof (splitlines_go_line c n "" H) as E.
  cbn [splitlines_go fst snd or_empty] in E.
  now rewrite !append_empty_r in E.
Qed.

Lemma splitlines_go_newline (s : string) :
  splitlines_go (nl ++ s) = (Some "", splitlines s).
Proof. reflexivity. Qed.

Lemma join_nl_cons (x y : string) (rest : list string) :
  Py.join nl (x :: y :: rest) = x ++ nl ++ Py.join nl (y :: rest).
Proof. reflexivity. Qed.

Lemma splitlines_join (names : list string) :
  Forall path_name names -> splitlines (Py.join nl names) = names.
Proof.
  induction names as [|x names IH]; intros H; [reflexivity|].
  inversion H as [|y l (Hne & Hnb & _ & _) Hrest]; subst.
  destruct x as [|c x]; [contradiction|].
  destruct names as [|y names].
  - cbn [Py.join]. unfold splitlines, all_lines.
    now rewrite (splitlines_go_last c x Hnb).
  - rewrite join_nl_cons. unfold splitlines at 1. unfold all_lines.
    rewrite (splitlines_go_line c x _ Hnb), splitlines_go_newline.
    cbn [fst snd or_empty]. now rewrite append_empty_r, (IH Hrest).
Qed.

Lemma rstrip_app_space (s : string) (c : ascii) :
  Py.isspace c = true -> Py.rstrip (s ++ String c "") = Py.rstrip s.
Proof.
  intros Hc. induction s as [|d s IH]; simpl.
  - now rewrite Hc.
  - now rewrite IH.
Qed.

Lemma last_is_space_app (a b : string) :
  b <> "" -> last_is_space (a ++ b) = last_is_space b.
Proof.
  intros Hb. induction a as [|c a IH]; [reflexivity|].
  change (String c a ++ b) with (String c (a ++ b)). cbn [last_is_space].
  destruct (a ++ b) eqn:E; [|exact IH].
  destruct a; [simpl in E; contradiction | discriminate].
Qed.

Lemma join_nl_ends (names : list string) :
  Forall path_name names ->
  first_is_space (Py.join nl names) = false
  /\ last_is_space (Py.join nl names) = false
  /\ (names <> [] -> Py.join nl names <> "").
Proof.
  induction names as [|x names IH]; intros H; [now repeat split|].
  inversion H as [|y l (Hne & _ & Hf & Hl) Hrest]; subst.
  destruct names as [|y names].
  - cbn [Py.join]. now repeat split.
  - rewrite join_nl_cons. destruct (IH Hrest) as (_ & IHl & IHn).
    split; [|split].
    + destruct x; [contradiction | exact Hf].
    + rewrite last_is_space_app, last_is_space_app; auto.
      * apply IHn. discriminate.
      * discriminate.
    + intros _. destruct x; [contradiction | discriminate].
Qed.

Lemma strip_git_names (names : list string) :
  Forall path_name names ->
  Py.strip (Py.join nl names ++ nl) = Py.join nl names.
Proof.
  intros H. destruct (join_nl_ends names H) as (Hf & Hl & _).
  unfold Py.strip, nl. rewrite rstrip_app_space by reflexivity.
  rewrite rstrip_fixed by exact Hl. now apply lstrip_fixed.
Qed.

Section ChangeSet.

Variable check_output : list string -> result string.
Variable base_ref : string.

(** X18. Every name of the change set is a line of what git printed: it
    holds no line break and is not blank, so it is not empty either. *)
Theorem changed_files_names (files : list string) (n : string) :
  changed_files check_output base_ref = Ok files -> In n files ->
  no_linebreak n = true /\ Py.strip n <> "" /\ n <> "".
Proof.
  unfold changed_files. intros H Hin.
  destruct (git check_output _) as [o1|]; [|discriminate]. cbn [bind] in H.
  destruct (git check_output _) as [mb|]; [|discriminate]. cbn [bind] in H.
  destruct (git check_output _) as [names|]; [|discriminate]. cbn [bind] in H.
  injection H as <-. apply filter_In in Hin as [Hin Ht].
  split; [eapply splitlines_no_linebreak; eauto|].
  split; intros E; rewrite E in Ht; discriminate.
Qed.

(** X19. When the fetch and the merge-base succeed and the diff prints
    one path per line, each path without whitespace at its ends, the
    change set is the list of those paths, in order. *)
Theorem changed_files_of_git_lines
    (fetched merge_base : string) (names : list string) :
  git check_output
      ["fetch"; "--no-tags"; "--prune"; "--depth=200"; "origin"; base_ref]
  = Ok fetched ->
  git check_output ["merge-base"; "HEAD"; "origin/" ++ base_ref]
  = Ok merge_base ->
  check_output ["git"; "diff"; "--name-only"; merge_base ++ "..HEAD"]
  = Ok (Py.join nl names ++ nl) ->
  Forall path_name names ->
  changed_files check_output base_ref = Ok names.
Proof.
  intros H1 H2 H3 Hn. unfold changed_files. rewrite H1. cbn [bind].
  rewrite H2. cbn [bind]. unfold git at 1. unfold run. rewrite H3.
  cbn [bind]. rewrite (strip_git_names names Hn), (splitlines_join names Hn).
  f_equal. apply forallb_filter_id. apply forallb_forall.
  intros n Hin. rewrite Forall_forall in Hn.
  destruct (Hn n Hin) as (Hne & _ & Hf & Hl).
  rewrite (strip_fixed n Hf Hl). destruct n; [contradiction | reflexivity].
Qed.

End ChangeSet.

Lemma changed_files_names_witness :
  changed_files sample_git "main" = Ok sample_files
  /\ In "README.md" sample_files
  /\ no_linebreak "README.md" = true /\ Py.strip "README.md" <> ""
  /\ "README.md" <> "".
Proof.
  assert (Hin : In "README.md" sample_files) by (right; right; left; reflexivity).
  split; [reflexivity|]. split; [exact Hin|].
  exact (changed_files_names sample_git "main" sample_files "README.md"
           eq_refl Hin).
Defined.

Lemma changed_files_of_git_lines_witness :
  Forall path_name sample_files
  /\ sample_git ["git"; "diff"; "--name-only"; "3f2a9c1" ++ "..HEAD"]
     = Ok (Py.join nl sample_files ++ nl)
  /\ changed_files sample_git "main" = Ok sample_files.
Proof.
  assert (Hn : Forall path_name sample_files).
  { repeat constructor; discriminate. }
  split; [exact Hn|]. split; [reflexivity|].
  exact (changed_files_of_git_lines sample_git "main" "3f2a9c1" "3f2a9c1"
           sample_files eq_refl eq_refl eq_refl Hn).
Defined.

(** ** Change-set validator: the base page is stripped *)

Lemma rstrip_app_nonspace (x y : string) :
  last_is_space x = false -> Py.rstrip (x ++ y) = x ++ Py.rstrip y.
Proof.
  induction x as [|c x IH]; intros H; [reflexivity|].
  cbn [append Py.rstrip]. destruct x as [|d x].
  - cbn [append]. cbn [last_is_space] in H. rewrite H.
    now destruct (Py.rstrip y).
  - rewrite IH by exact H. reflexivity.
Qed.

Lemma lstrip_app_nonspace (x y : string) (c : ascii) :
  Py.isspace c = false ->
  Py.lstrip (x ++ String c y) = Py.lstrip x ++ String c y.
Proof.
  intros Hc. induction x as [|d x IH]; cbn [append Py.lstrip].
  - now rewrite Hc.
  - destruct (Py.isspace d); [exact IH | reflexivity].
Qed.

Lemma lstrip_suffix (s : string) : exists w, s = w ++ Py.lstrip s.
Proof.
  induction s as [|c s [w IH]]; [now exists ""|]. cbn [Py.lstrip].
  destruct (Py.isspace c).
  - exists (String c w). cbn [append]. now rewrite <- IH.
  - now exists "".
Qed.

Lemma absent_lstrip (sub s : string) :
  absent sub s -> absent sub (Py.lstrip s).
Proof.
  intros H n Hn. destruct (lstrip_suffix s) as [w E].
  apply (H (length w + n)%nat). rewrite E.
  now apply occurs_suffix_extend.
Qed.

(** Stripping a page that splits gives a page that splits, with the
    same interior: only the whitespace before the prefix and after the
    suffix goes. *)
Lemma split_chaos_region_strip (raw before region after : string) :
  split_chaos_region raw = Ok (before, region, after) ->
  split_chaos_region (Py.strip raw)
  = Ok (Py.lstrip before, region, Py.rstrip after).
Proof.
  intros H.
  destruct (split_parts_inv _ _ _ _ H)
    as (pre & post & -> & -> & -> & As & Ae & Ar).
  assert (Er : Py.rstrip (pre ++ CHAOS_START ++ region ++ CHAOS_END ++ post)
               = pre ++ CHAOS_START ++ region ++ CHAOS_END ++ Py.rstrip post).
  { replace (pre ++ CHAOS_START ++ region ++ CHAOS_END ++ post)
      with ((pre ++ CHAOS_START ++ region ++ CHAOS_END) ++ post)
      by now rewrite !append_assoc.
    rewrite rstrip_app_nonspace; [now rewrite !append_assoc|].
    replace (pre ++ CHAOS_START ++ region ++ CHAOS_END)
      with ((pre ++ CHAOS_START ++ region) ++ CHAOS_END)
      by now rewrite !append_assoc.
    now rewrite last_is_space_app by discriminate. }
  assert (El : forall rest,
             Py.lstrip (pre ++ CHAOS_START ++ rest)
             = Py.lstrip pre ++ CHAOS_START ++ rest).
  { intros rest. apply (lstrip_app_nonspace pre). reflexivity. }
  unfold Py.strip. rewrite Er, El.
  rewrite (split_of_parts (Py.lstrip pre) region (Py.rstrip post));
    try assumption; try (now apply absent_lstrip).
  apply f_equal. apply f_equal2; [apply f_equal2|]; try reflexivity.
  - symmetry. replace (pre ++ CHAOS_START) with (pre ++ CHAOS_START ++ "")
      by now rewrite append_empty_r.
    rewrite El. now rewrite append_empty_r.
  - symmetry. apply (rstrip_app_nonspace CHAOS_END). reflexivity.
Qed.

Lemma rstrip_differs (s : string) :
  last_is_space s = true -> Py.rstrip s <> s.
Proof.
  intros H E. pose proof (rstrip_last s) as L. rewrite E, H in L.
  discriminate.
Qed.

Section StrippedBase.

Variable check_output : list string -> result string.
Variable open_read : string -> result string.
Variable starttags : string -> result (list starttag).
Variable base_ref : string.

(** The HTML block on two pages that split, the base page being the
    output of git show before [run] strips it. *)
Lemma validate_html_block
    (raw head_html bb br ba hb hr ha : string) :
  check_output ["git"; "show"; ("origin/" ++ base_ref) ++ ":" ++ index_html]
  = Ok raw ->
  read_worktree open_read index_html = Ok head_html ->
  split_chaos_region raw = Ok (bb, br, ba) ->
  split_chaos_region head_html = Ok (hb, hr, ha) ->
  validate_html check_output open_read starttags base_ref []
  = match starttags hr with
    | Ok events =>
        Ok ((if String.eqb (Py.lstrip bb) hb && String.eqb (Py.rstrip ba) ha
             then [] else [outside_region_error])
            ++ flat_map (fun ev => handle_starttag [] (fst ev) (snd ev))
                        events)%list
    | Raise e => Raise e
    end.
Proof.
  intros Hraw Hh Sb Sh.
  assert (Hb : read_file_at_ref check_output ("origin/" ++ base_ref)
                 index_html = Ok (Py.strip raw))
    by (apply (read_file_at_ref_inv check_output); eauto).
  rewrite validate_html_spec, Hb, Hh. unfold html_violations.
  rewrite (split_chaos_region_strip _ _ _ _ Sb), Sh, scan_spec.
  now destruct (starttags hr).
Qed.

(** C7. The claim fails on the code: the base page the validator
    compares with is the output of git show after [run] has stripped it,
    not the base document.  When the base document and the current
    document both split and the tokenizer returns the start tags of the
    current interior, the run reports the outside-the-region violation
    exactly when the current prefix is not the base prefix without its
    leading whitespace or the current suffix is not the base suffix
    without its trailing whitespace, then the violations of the start
    tags.  So for a base document that ends with whitespace, a final
    newline for one, the violation is reported although the two prefixes
    are equal and the two suffixes are equal. *)
Theorem outside_violation_despite_equal_parts
    (files : list string) (raw head_html bb br ba hb hr ha : string)
    (events : list starttag) (css_errs : list string) :
  changed_files check_output base_ref = Ok files ->
  Py.contains files index_html = true ->
  check_output ["git"; "show"; ("origin/" ++ base_ref) ++ ":" ++ index_html]
  = Ok raw ->
  read_worktree open_read index_html = Ok head_html ->
  split_chaos_region raw = Ok (bb, br, ba) ->
  split_chaos_region head_html = Ok (hb, hr, ha) ->
  starttags hr = Ok events ->
  css_outcome open_read files css_errs ->
  validate check_output open_read starttags base_ref
  = Ok (result_of
          (allow_errors files
           ++ (if String.eqb (Py.lstrip bb) hb && String.eqb (Py.rstrip ba) ha
               then []
               else ["index.html may only change content between CHAOS_START/CHAOS_END markers"])
           ++ flat_map (fun ev => handle_starttag [] (fst ev) (snd ev)) events
           ++ css_errs))
  /\ (bb = hb -> ba = ha -> last_is_space raw = true ->
      validate check_output open_read starttags base_ref
      = Ok (result_of
              (allow_errors files
               ++ ["index.html may only change content between CHAOS_START/CHAOS_END markers"]
               ++ flat_map (fun ev => handle_starttag [] (fst ev) (snd ev))
                           events
               ++ css_errs))).
Proof.
  intros Hf Hin Hraw Hh Sb Sh Ht Hc.
  assert (G : validate check_output open_read starttags base_ref
    = Ok (result_of
            (allow_errors files
             ++ (if String.eqb (Py.lstrip bb) hb
                    && String.eqb (Py.rstrip ba) ha
                 then [] else [outside_region_error])
             ++ flat_map (fun ev => handle_starttag [] (fst ev) (snd ev))
                         events
             ++ css_errs))).
  { apply (validate_spec _ _ _ _ files _ Hf).
    eexists _, css_errs. split; [|split; [exact Hc|]].
    - unfold html_outcome.
      rewrite Hin, (validate_html_block _ _ _ _ _ _ _ _ Hraw Hh Sb Sh), Ht.
      reflexivity.
    - now rewrite <- app_assoc. }
  split; [exact G|].
  intros -> -> Hsp. rewrite G.
  assert (Hne : Py.rstrip ha <> ha).
  { apply rstrip_differs.
    now rewrite (split_after_last _ _ _ _ Sb). }
  destruct (String.eqb_spec (Py.rstrip ha) ha); [contradiction|].
  now rewrite andb_false_r.
Qed.

(** X21. The HTML block as the code runs it, for pages that split: the
    outside-the-region violation is reported exactly when the current
    prefix or suffix is not that of the stripped output of git show, the
    violations of the start tags of the current interior follow, whatever
    the comparison gave, and an exception of the tokenizer is raised by
    the run. *)
Theorem html_block_outcome
    (files : list string) (raw head_html bb br ba hb hr ha : string) :
  changed_files check_output base_ref = Ok files ->
  Py.contains files index_html = true ->
  check_output ["git"; "show"; ("origin/" ++ base_ref) ++ ":" ++ index_html]
  = Ok raw ->
  read_worktree open_read index_html = Ok head_html ->
  split_chaos_region (Py.strip raw) = Ok (bb, br, ba) ->
  split_chaos_region head_html = Ok (hb, hr, ha) ->
  (forall events css_errs,
      starttags hr = Ok events ->
      css_outcome open_read files css_errs ->
      validate check_output open_read starttags base_ref
      = Ok (result_of
              (allow_errors files
               ++ (if String.eqb bb hb && String.eqb ba ha
                   then []
                   else ["index.html may only change content between CHAOS_START/CHAOS_END markers"])
               ++ flat_map (fun ev => handle_starttag [] (fst ev) (snd ev))
                           events
               ++ css_errs)))
  /\ (forall e, starttags hr = Raise e ->
                validate check_output open_read starttags base_ref = Raise e).
Proof.
  intros Hf Hin Hraw Hh Sb Sh.
  assert (Hb : read_file_at_ref check_output ("origin/" ++ base_ref)
                 index_html = Ok (Py.strip raw))
    by (apply (read_file_at_ref_inv check_output); eauto).
  split.
  - intros events css_errs Ht Hc.
    apply (validate_spec _ _ _ _ files _ Hf).
    eexists _, css_errs. split; [|split; [exact Hc|]].
    + unfold html_outcome. rewrite Hin, validate_html_spec, Hb, Hh.
      unfold html_violations. rewrite Sb, Sh, scan_spec, Ht. reflexivity.
    + now rewrite <- app_assoc.
  - intros e Ht. unfold validate. rewrite Hf. cbn [bind]. rewrite Hin.
    rewrite validate_html_app, validate_html_spec, Hb, Hh.
    unfold html_violations. now rewrite Sb, Sh, scan_spec, Ht.
Qed.

End StrippedBase.

Lemma outside_violation_despite_equal_parts_witness :
  split_chaos_region (sample_page "<body>" "old" ++ nl)
  = Ok ("<body>" ++ CHAOS_START, "old", CHAOS_END ++ "</body>" ++ nl)
  /\ split_chaos_region (sample_page "<body>" sample_region ++ nl)
     = Ok ("<body>" ++ CHAOS_START, sample_region,
           CHAOS_END ++ "</body>" ++ nl)
  /\ last_is_space (sample_page "<body>" "old" ++ nl) = true
  /\ validate sample_git sample_tree_newline sample_starttags "main"
     = Ok (result_of
             ["Only these files may change: chaos-board/assets/chaos.css, chaos-board/index.html";
              "Illegal changed files: README.md";
              "index.html may only change content between CHAOS_START/CHAOS_END markers";
              "Inline event handler attribute not allowed: b[onclick]";
              "Bare element selector not allowed in chaos.css: .chaos-region h1"]).
Proof.
  split; [reflexivity|]. split; [reflexivity|]. split; [reflexivity|].
  exact (proj2 (outside_violation_despite_equal_parts
                  sample_git sample_tree_newline sample_starttags "main"
                  sample_files
                  (sample_page "<body>" "old" ++ nl)
                  (sample_page "<body>" sample_region ++ nl)
                  ("<body>" ++ CHAOS_START) "old"
                  (CHAOS_END ++ "</body>" ++ nl)
                  ("<body>" ++ CHAOS_START) sample_region
                  (CHAOS_END ++ "</body>" ++ nl)
                  [("b", [("onclick", Some "go()")])]
                  (validate_css_scoping sample_css)
                  eq_refl eq_refl eq_refl eq_refl eq_refl eq_refl eq_refl
                  sample_css_outcome)
           eq_refl eq_refl eq_refl).
Defined.

Lemma html_block_outcome_witness :
  split_chaos_region (Py.strip (sample_page "<body>" "old" ++ nl))
  = Ok ("<body>" ++ CHAOS_START, "old", CHAOS_END ++ "</body>")
  /\ sample_starttags sample_region = Ok [("b", [("onclick", Some "go()")])]
  /\ validate sample_git sample_tree sample_starttags "main"
     = Ok (result_of
             ["Only these files may change: chaos-board/assets/chaos.css, chaos-board/index.html";
              "Illegal changed files: README.md";
              "Inline event handler attribute not allowed: b[onclick]";
              "Bare element selector not allowed in chaos.css: .chaos-region h1"]).
Proof.
  split; [reflexivity|]. split; [reflexivity|].
  exact (proj1 (html_block_outcome
                  sample_git sample_tree sample_starttags "main"
                  sample_files
                  (sample_page "<body>" "old" ++ nl)
                  (sample_page "<body>" sample_region)
                  ("<body>" ++ CHAOS_START) "old" (CHAOS_END ++ "</body>")
                  ("<body>" ++ CHAOS_START) sample_region
                  (CHAOS_END ++ "</body>")
                  eq_refl eq_refl eq_refl eq_refl eq_refl eq_refl)
           [("b", [("onclick", Some "go()")])]
           (validate_css_scoping sample_css)
           eq_refl sample_css_outcome).
Defined.

(** ** The entry point *)

Section MainFacts.

Variable check_output : list string -> result string.
Variable open_read : string -> result string.
Variable starttags : string -> result (list starttag).
Variable environ_get : string -> option string.

Lemma validate_result_of (base_ref : string) (r : ValidationResult) :
  validate check_output open_read starttags base_ref = Ok r ->
  r = result_of (errors r).
Proof.
  intros Hr. destruct (validate_ok_files _ _ _ _ r Hr) as [files Hf].
  apply (validate_spec _ _ _ _ files r Hf) in Hr.
  now destruct Hr as (h & c & _ & _ & ->).
Qed.

(** X20. [main] validates against the base ref that [get_base_ref]
    finds.  When it returns, either the run had no violation, the status
    is 0 and the one line printed is the OK line, or the run had
    violations, the status is 2 and the lines printed are the FAILED line
    and then each violation after a dash, in order.  An exception of the
    run is raised by [main] as well.  The base ref is GITHUB_BASE_REF when
    it is set and not empty, whatever git would say, and it is main when
    the variable gives nothing and git fails. *)
Theorem main_outcome :
  (forall (lines : list string) (status : Z),
      main check_output open_read starttags environ_get = Ok (lines, status) ->
      exists r,
        validate check_output open_read starttags
                 (get_base_ref check_output environ_get) = Ok r
        /\ ((errors r = [] /\ status = 0%Z
             /\ lines = ["Chaos PR validation: OK"])
            \/ (errors r <> [] /\ status = 2%Z
                /\ lines = "Chaos PR validation: FAILED"
                           :: map (fun e => "- " ++ e) (errors r))))
  /\ (forall e,
        validate check_output open_read starttags
                 (get_base_ref check_output environ_get) = Raise e ->
        main check_output open_read starttags environ_get = Raise e)
  /\ (forall base,
        environ_get "GITHUB_BASE_REF" = Some base -> base <> "" ->
        get_base_ref check_output environ_get = base)
  /\ (forall e,
        environ_get "GITHUB_BASE_REF" = None
        \/ environ_get "GITHUB_BASE_REF" = Some "" ->
        check_output ["git"; "rev-parse"; "--abbrev-ref"; "HEAD"] = Raise e ->
        get_base_ref check_output environ_get = "main").
Proof.
  split; [|split; [|split]].
  - intros lines status H. unfold main in H. cbv zeta in H.
    destruct (validate _ _ _ _) as [r|e] eqn:Hr; [|discriminate].
    cbn [bind] in H. exists r. split; [reflexivity|].
    pose proof (validate_result_of _ r Hr) as Er.
    destruct (ok r) eqn:Hok; injection H as <- <-.
    + left. split; [|now split].
      rewrite Er in Hok. now apply result_of_ok in Hok.
    + right. split; [|now split].
      intros E. rewrite Er, E in Hok. discriminate.
  - intros e H. unfold main. cbv zeta. now rewrite H.
  - intros base H Hne. unfold get_base_ref. rewrite H.
    destruct base; [contradiction | reflexivity].
  - intros e H Hg. unfold get_base_ref, git, run. rewrite Hg. cbn [bind].
    destruct H as [-> | ->]; reflexivity.
Qed.

End MainFacts.

Lemma main_outcome_witness :
  main sample_git sample_tree sample_starttags (fun _ => Some "main")
  = Ok (["Chaos PR validation: FAILED";
         "- " ++ allowed_files_error;
         "- Illegal changed files: README.md";
         "- Inline event handler attribute not allowed: b[onclick]";
         "- " ++ bare_error ".chaos-region h1"], 2%Z)
  /\ exists r,
       validate sample_git sample_tree sample_starttags
                (get_base_ref sample_git (fun _ => Some "main")) = Ok r
       /\ ((errors r = [] /\ 2%Z = 0%Z
            /\ ["Chaos PR validation: FAILED";
                "- " ++ allowed_files_error;
                "- Illegal changed files: README.md";
                "- Inline event handler attribute not allowed: b[onclick]";
                "- " ++ bare_error ".chaos-region h1"]
               = ["Chaos PR validation: OK"])
           \/ (errors r <> [] /\ 2%Z = 2%Z
               /\ ["Chaos PR validation: FAILED";
                   "- " ++ allowed_files_error;
                   "- Illegal changed files: README.md";
                   "- Inline event handler attribute not allowed: b[onclick]";
                   "- " ++ bare_error ".chaos-region h1"]
                  = "Chaos PR validation: FAILED"
                    :: map (fun e => "- " ++ e) (errors r))).
Proof.
  split; [reflexivity|].
  exact (proj1 (main_outcome sample_git sample_tree sample_starttags
                             (fun _ => Some "main"))
           _ 2%Z eq_refl).
Defined.
